(** * stylegen: the Material theme to CSS converter (convert-theme-rgb.js)

    A shallow embedding of the converter's three helpers
    ([hexToRgbValues], [createTonalPaletteFrom100], [toKebabCase]) and of
    the body of the CLI action that walks the two colour schemes and
    pushes CSS lines into its two buffers.

    Conventions of the embedding.
    - A JavaScript string is a sequence of UTF-16 code units.  A Rocq
      [string] stands for the JavaScript string whose code units are the
      codes of its characters, so the embedding covers the strings whose
      code units are all below 256; [String.length] is then the
      JavaScript [length].
    - A value read from the theme file is a [value], the tree built by
      [JSON.parse].
    - chroma-js is an external library: the calls the converter makes to
      it are the operations of the class [Chroma], and every statement
      holds for any implementation of that class.
    - The progress messages printed on standard output are not part of
      the embedding; the diagnostic written by [console.error] is.
    - An exception that leaves a function is an abrupt completion of the
      monad [M]; the only one the converter can raise itself is the
      [TypeError] of converting a value to a string. *)

From Stdlib Require Import String Ascii List ZArith NArith QArith Bool Lia.
From Stdlib Require Import DecimalString Sorted.
Import ListNotations.

Local Close Scope Q_scope.
Local Open Scope list_scope.
Local Open Scope string_scope.
Local Open Scope Z_scope.

(* ------------------------------------------------------------------ *)
(** ** JavaScript values and strings                                   *)
(* ------------------------------------------------------------------ *)

(** The values [JSON.parse] can produce, and [undefined] (what reading a
    missing array element gives). *)
#[warnings="-register-all"]
Inductive value : Type :=
| VUndefined
| VNull
| VBool (b : bool)
| VNumber (x : Q)
| VString (s : string)
| VArray (items : list value)
| VObject (fields : list (string * value)).

(** Whether [`${v}`] throws.  A template literal converts its value with
    ToString.  For a primitive that never throws.  An object made by
    [JSON.parse] finds [Object.prototype.toString], unless it has a
    property of its own named [toString]: that one is not callable, the
    [valueOf] that is tried next gives no primitive either, and the
    conversion ends in a [TypeError].  An array is converted by
    [Array.prototype.join], which converts each element that is not
    [null]. *)
Fixpoint throws_on_ToString (v : value) : bool :=
  match v with
  | VObject fields =>
      existsb (fun field => String.eqb (fst field) "toString") fields
  | VArray items => existsb throws_on_ToString items
  | _ => false
  end.

(** What the converter itself can throw: the [TypeError] of a value
    that cannot be converted to a primitive. *)
Inductive thrown : Type :=
| TypeError (v : value).

(** The line feed of the template literals. *)
Definition nl : string := String (ascii_of_nat 10) "".

(** [s.startsWith(p)] *)
Definition startsWith (s p : string) : bool := String.prefix p s.

(** [s.slice(1)] *)
Definition slice1 (s : string) : string :=
  match s with
  | EmptyString => EmptyString
  | String _ rest => rest
  end.

(** [s.substring(from, to)] for [from <= to]. *)
Definition substring (from to : nat) (s : string) : string :=
  String.substring from (to - from) s.

(** [s.split('').map(char => char + char).join('')] *)
Fixpoint double_chars (s : string) : string :=
  match s with
  | EmptyString => EmptyString
  | String c rest => String c (String c (double_chars rest))
  end.

(** [arr.join(sep)] *)
Fixpoint join (sep : string) (arr : list string) : string :=
  match arr with
  | [] => ""
  | [x] => x
  | x :: rest => x ++ sep ++ join sep rest
  end.

(* ------------------------------------------------------------------ *)
(** ** parseInt(s, 16) and number printing                             *)
(* ------------------------------------------------------------------ *)

(** The code units below 256 that [parseInt] skips at the start of its
    argument: TAB, LF, VT, FF, CR, SP and NBSP. *)
Definition is_white_space (c : ascii) : bool :=
  match nat_of_ascii c with
  | 9 | 10 | 11 | 12 | 13 | 32 | 160 => true
  | _ => false
  end%nat.

Fixpoint trim_start (s : string) : string :=
  match s with
  | EmptyString => EmptyString
  | String c rest => if is_white_space c then trim_start rest else s
  end.

(** The value of a radix-16 digit. *)
Definition hex_digit_val (c : ascii) : option Z :=
  let n := Z.of_nat (nat_of_ascii c) in
  if (48 <=? n) && (n <=? 57) then Some (n - 48)        (* 0-9 *)
  else if (97 <=? n) && (n <=? 102) then Some (n - 87)  (* a-f *)
  else if (65 <=? n) && (n <=? 70) then Some (n - 55)   (* A-F *)
  else None.

Definition is_hex_digit (c : ascii) : bool :=
  match hex_digit_val c with Some _ => true | None => false end.

(** The longest prefix of radix-16 digits, read as a number; [acc] is
    [None] as long as no digit has been read. *)
Fixpoint parse_digits (s : string) (acc : option Z) : option Z :=
  match s with
  | EmptyString => acc
  | String c rest =>
      match hex_digit_val c with
      | Some d =>
          parse_digits rest
            (Some (16 * match acc with Some a => a | None => 0 end + d))
      | None => acc
      end
  end.

(** A JavaScript number as far as the converter meets one: [None] is
    [NaN], [Some z] the integer [z] (exact below 2^53; the converter
    only parses two code units). *)
Definition number := option Z.

(** [parseInt(s, 16)]: skip leading white space, take a sign, drop a
    [0x] or [0X] prefix, read the longest run of digits; [NaN] when
    there is none. *)
Definition parseInt16 (s : string) : number :=
  let s := trim_start s in
  let '(sign, s) :=
    match s with
    | String "-" rest => (-1, rest)
    | String "+" rest => (1, rest)
    | _ => (1, s)
    end in
  let s :=
    match s with
    | String "0" (String "x" rest) => rest
    | String "0" (String "X" rest) => rest
    | _ => s
    end in
  match parse_digits s None with
  | Some n => Some (sign * n)
  | None => None
  end.

(** [`${n}`] for an integer or [NaN]. *)
Definition number_to_string (n : number) : string :=
  match n with
  | Some z => NilZero.string_of_int (Z.to_int z)
  | None => "NaN"
  end.

(* ------------------------------------------------------------------ *)
(** ** hexToRgbValues                                                  *)
(* ------------------------------------------------------------------ *)

(** [!hex || typeof hex !== 'string'] leaves only the non-empty strings.
    [parseInt] and the template literal never throw on strings, so the
    [catch] branch of the source has no counterpart here. *)
Definition hexToRgbValues (hex : value) : string :=
  match hex with
  | VString hex =>
      if (String.length hex =? 0)%nat then "0, 0, 0" else
      let cleanHex := if startsWith hex "#" then slice1 hex else hex in
      let cleanHex :=
        if (String.length cleanHex =? 3)%nat then double_chars cleanHex
        else cleanHex in
      if negb (String.length cleanHex =? 6)%nat then "0, 0, 0" else
      let r := parseInt16 (substring 0 2 cleanHex) in
      let g := parseInt16 (substring 2 4 cleanHex) in
      let b := parseInt16 (substring 4 6 cleanHex) in
      number_to_string r ++ ", " ++ number_to_string g ++ ", "
        ++ number_to_string b
  | _ => "0, 0, 0"
  end.

(* ------------------------------------------------------------------ *)
(** ** toKebabCase                                                     *)
(* ------------------------------------------------------------------ *)

Definition in_range (lo hi : nat) (c : ascii) : bool :=
  let n := nat_of_ascii c in ((lo <=? n) && (n <=? hi))%nat.

(** The character classes of the regular expression. *)
Definition is_lower_or_digit (c : ascii) : bool :=
  in_range 97 122 c || in_range 48 57 c.        (* [a-z0-9] *)

Definition is_upper (c : ascii) : bool := in_range 65 90 c.   (* [A-Z] *)

(** [str.replace(/([a-z0-9])([A-Z])/g, '$1-$2')].  A match ends on an
    upper-case letter, which cannot start the next match, so resuming
    the scan on the second character of a match is the same as resuming
    after it. *)
Fixpoint hyphenate (str : string) : string :=
  match str with
  | EmptyString => EmptyString
  | String c1 rest =>
      match rest with
      | String c2 _ =>
          if is_lower_or_digit c1 && is_upper c2
          then String c1 (String "-" (hyphenate rest))
          else String c1 (hyphenate rest)
      | EmptyString => String c1 EmptyString
      end
  end.

(** [toLowerCase] on code units below 256: A-Z, and the capital letters
    of the Latin-1 block (0xC0-0xDE without the multiplication sign).
    There the conversion works code unit by code unit; for other
    characters it may depend on the neighbours (the final sigma), which
    is outside the embedding. *)
Definition lower_char (c : ascii) : ascii :=
  let n := nat_of_ascii c in
  if is_upper c || (in_range 192 222 c && negb (n =? 215)%nat)
  then ascii_of_nat (n + 32)
  else c.

Fixpoint toLowerCase (s : string) : string :=
  match s with
  | EmptyString => EmptyString
  | String c rest => String (lower_char c) (toLowerCase rest)
  end.

Definition toKebabCase (str : string) : string :=
  toLowerCase (hyphenate str).

(** [s.replace(/-/g, ' ')] *)
Fixpoint hyphens_to_spaces (s : string) : string :=
  match s with
  | EmptyString => EmptyString
  | String c rest =>
      String (if Ascii.eqb c "-" then " "%char else c) (hyphens_to_spaces rest)
  end.

(* ------------------------------------------------------------------ *)
(** ** Objects with integer keys, arrays                               *)
(* ------------------------------------------------------------------ *)

(** The palette is an ordinary object whose property names are integer
    indices.  Such an object keeps these properties in ascending numeric
    order whatever the order of the assignments, and [for ... in] visits
    them in that order: the object is the list of its entries, kept
    ascending by [obj_set]. *)
Definition object := list (N * value).

Definition empty_object : object := [].

(** [o[k] = v] *)
Fixpoint obj_set (k : N) (v : value) (o : object) : object :=
  match o with
  | [] => [(k, v)]
  | (k', v') :: rest =>
      if (k <? k')%N then (k, v) :: o
      else if (k =? k')%N then (k, v) :: rest
      else (k', v') :: obj_set k v rest
  end.

(** [o[k]] *)
Fixpoint obj_get (k : N) (o : object) : value :=
  match o with
  | [] => VUndefined
  | (k', v') :: rest => if (k =? k')%N then v' else obj_get k rest
  end.

Definition obj_keys (o : object) : list N := map fst o.

(** [`${shade}`] for a property name of the palette. *)
Definition key_to_string (k : N) : string :=
  NilZero.string_of_uint (N.to_uint k).

(** [arr[i]] *)
Definition array_get (arr : list value) (i : nat) : value :=
  nth i arr VUndefined.

(** [arr.slice(1)] *)
Definition array_slice1 {A} (arr : list A) : list A := tl arr.

(** [KEYS_TO_SKIP.includes(role)] *)
Definition includes (arr : list string) (x : string) : bool :=
  existsb (String.eqb x) arr.

(* ------------------------------------------------------------------ *)
(** ** The colour library                                              *)
(* ------------------------------------------------------------------ *)

(** A call that returns or throws. *)
Inductive result (E A : Type) : Type :=
| Returns (a : A)
| Throws (e : E).
Arguments Returns {E A} a.
Arguments Throws {E A} e.

(** The one chain of chroma-js calls the converter uses,
    [chroma.scale([c1, c2]).mode(mode).padding(p).colors(n)], with
    [padding] absent when the chain has no [.padding(...)].  It returns
    the array of colour strings or throws. *)
Class Chroma : Type := {
  chroma_error : Type;
  scale_colors :
    value -> value -> string -> option (Q * Q) -> nat ->
    result chroma_error (list string)
}.

(* ------------------------------------------------------------------ *)
(** ** Effects: state and exceptions                                   *)
(* ------------------------------------------------------------------ *)

(** How a block ends: with a value, or by an exception that nothing in
    the block caught. *)
Inductive completion (A : Type) : Type :=
| Normal (a : A)
| Abrupt (e : thrown).
Arguments Normal {A} a.
Arguments Abrupt {A} e.

(** A block runs on the buffers and leaves them as they are when it
    ends, also when it ends abruptly. *)
Definition M (S A : Type) : Type := S -> completion A * S.

Definition ret {S A} (a : A) : M S A := fun st => (Normal a, st).

Definition throw {S A} (e : thrown) : M S A := fun st => (Abrupt e, st).

Definition bind {S A B} (c : M S A) (k : A -> M S B) : M S B :=
  fun st =>
    match c st with
    | (Normal a, st') => k a st'
    | (Abrupt e, st') => (Abrupt e, st')
    end.

Notation "x <- c ;; k" := (bind c (fun x => k))
  (at level 61, c at next level, right associativity).
Notation "c ;; k" := (bind c (fun _ => k))
  (at level 61, right associativity).

(** [for (const key in o) { const v = o[key]; body }]: the object is
    given by its entries in the order the loop visits them. *)
Fixpoint for_in {S K V} (o : list (K * V)) (body : K -> V -> M S unit)
  : M S unit :=
  match o with
  | [] => ret tt
  | (key, v) :: rest => body key v ;; for_in rest body
  end.

Section Converter.

Context {lib : Chroma}.

(** What [console.error] receives in [createTonalPaletteFrom100]: the
    message is built from the base colour, the second argument is the
    error caught.  The text of the message is not spelled out, only the
    value it is built from. *)
Inductive diagnostic : Type :=
| ErrorGeneratingPalette (baseColorHex : value) (error : chroma_error).

(** The two line buffers of the action and the diagnostic output. *)
Record state : Type := mkState {
  cssRawVarsOutput : list string;
  themeRegistrationOutput : list string;
  stderr : list diagnostic
}.

(** [cssRawVarsOutput.push(line)] *)
Definition push_css (line : string) : M state unit :=
  fun st => (Normal tt, mkState (cssRawVarsOutput st ++ [line])%list
                                (themeRegistrationOutput st) (stderr st)).

(** [themeRegistrationOutput.push(line)] *)
Definition push_theme (line : string) : M state unit :=
  fun st => (Normal tt, mkState (cssRawVarsOutput st)
                                (themeRegistrationOutput st ++ [line])%list
                                (stderr st)).

Definition console_error (d : diagnostic) : M state unit :=
  fun st => (Normal tt,
             mkState (cssRawVarsOutput st) (themeRegistrationOutput st)
                     (stderr st ++ [d])%list).

Definition KEYS_TO_SKIP : list string :=
  ["background"; "surface"; "surfaceTint"; "shadow"; "scrim";
   "outline"; "outlineVariant"; "surfaceDim"; "surfaceBright"].

(* ------------------------------------------------------------------ *)
(** ** createTonalPaletteFrom100                                       *)
(* ------------------------------------------------------------------ *)

Definition shades : list N :=
  [50; 100; 200; 300; 400; 500; 600; 700; 800; 900; 950]%N.

(** [shades.forEach((shade, index) => { palette[shade] =
    generatedColors[index]; })], from position [index] on. *)
Fixpoint forEach_assign (shades : list N) (index : nat)
    (generatedColors : list value) (palette : object) : object :=
  match shades with
  | [] => palette
  | shade :: rest =>
      forEach_assign rest (S index) generatedColors
        (obj_set shade (array_get generatedColors index) palette)
  end.

(** The body of the [try] block: the two library calls in the order the
    source makes them, then the assignments. *)
Definition try_palette (baseColorHex : value)
  : result chroma_error object :=
  let palette := empty_object in
  match scale_colors (VString "#FFFFFF") baseColorHex "lch" None 3 with
  | Throws error => Throws error
  | Returns lighter =>
      let lighterShade := array_get (map VString lighter) 1 in
      match scale_colors baseColorHex (VString "#09090b") "lch"
              (Some (1 # 10, 1 # 4)%Q) 10 with
      | Throws error => Throws error
      | Returns darker =>
          let darkerShades := array_slice1 (map VString darker) in
          let generatedColors :=
            lighterShade :: baseColorHex :: darkerShades in
          Returns (forEach_assign shades 0 generatedColors palette)
      end
  end.

(** The template literal of the [catch] block,
    [`Error generating palette for ${baseColorHex}:`]: it is evaluated
    before [console.error] is called, and throws when the base colour
    cannot be converted to a string. *)
Definition error_message (baseColorHex : value) : M state unit :=
  if throws_on_ToString baseColorHex then throw (TypeError baseColorHex)
  else ret tt.

(** [None] is the [null] of the [catch] block.  An exception raised
    inside the [catch] block leaves the function. *)
Definition createTonalPaletteFrom100 (baseColorHex : value)
  : M state (option object) :=
  match try_palette baseColorHex with
  | Returns palette => ret (Some palette)
  | Throws error =>
      error_message baseColorHex ;;
      console_error (ErrorGeneratingPalette baseColorHex error) ;;
      ret None
  end.

(* ------------------------------------------------------------------ *)
(** ** The action                                                      *)
(* ------------------------------------------------------------------ *)

(** A colour scheme ([schemes.light], [schemes.dark]): the entries of
    the object in the order [for ... in] visits them, each role with
    [schemes.light[role]].  A scheme that is absent has no entry. *)
Definition scheme := list (string * value).

(** The body of the loop over [schemes.light]. *)
Definition light_role (role : string) (colorHex : value) : M state unit :=
  let roleKebab := toKebabCase role in
  let colorRgbValues := hexToRgbValues colorHex in
  push_css (nl ++ "  /* --- " ++ hyphens_to_spaces roleKebab ++ " --- */") ;;
  push_css ("  --md-sys-color-" ++ roleKebab ++ ": " ++ colorRgbValues
              ++ "; /* Locked Color */") ;;
  push_theme (nl ++ "  /* " ++ hyphens_to_spaces roleKebab ++ " */") ;;
  push_theme ("  --color-" ++ roleKebab ++ ": var(--md-sys-color-"
                ++ roleKebab ++ "); /* Locked Color */") ;;
  if negb (includes KEYS_TO_SKIP role) then
    newPalette <- createTonalPaletteFrom100 colorHex ;;
    match newPalette with
    | Some newPalette =>
        for_in newPalette (fun shade shadeHex =>
          let shade := key_to_string shade in
          let shadeRgbValues := hexToRgbValues shadeHex in
          push_css ("  --md-sys-color-" ++ roleKebab ++ "-" ++ shade ++ ": "
                      ++ shadeRgbValues ++ ";") ;;
          push_theme ("  --color-" ++ roleKebab ++ "-" ++ shade
                        ++ ": var(--md-sys-color-" ++ roleKebab ++ "-"
                        ++ shade ++ ");"))
    | None => ret tt
    end
  else ret tt.

(** The body of the loop over [schemes.dark]. *)
Definition dark_role (role : string) (colorHex : value) : M state unit :=
  let roleKebab := toKebabCase role in
  let colorRgbValues := hexToRgbValues colorHex in
  push_css (nl ++ "    /* --- " ++ hyphens_to_spaces roleKebab ++ " --- */") ;;
  push_css ("    --md-sys-color-" ++ roleKebab ++ ": " ++ colorRgbValues
              ++ "; /* Locked Color */") ;;
  if negb (includes KEYS_TO_SKIP role) then
    newPalette <- createTonalPaletteFrom100 colorHex ;;
    match newPalette with
    | Some newPalette =>
        for_in newPalette (fun shade shadeHex =>
          let shade := key_to_string shade in
          let shadeRgbValues := hexToRgbValues shadeHex in
          push_css ("    --md-sys-color-" ++ roleKebab ++ "-" ++ shade ++ ": "
                      ++ shadeRgbValues ++ ";"))
    | None => ret tt
    end
  else ret tt.

Definition rule : string :=
  "/* ================================================================== */".

(** The buffers as the action creates them. *)
Definition initial_state : state := mkState [] ["@theme {"] [].

(** Steps 2 and 3 of the action on the parsed document: fill the two
    buffers and return [finalCssOutput]. *)
Definition build (light dark : scheme) : M state (list string) :=
  push_css rule ;;
  push_css "/* MATERIAL DESIGN COLOR TOKENS (LIGHT & DARK)                  */" ;;
  push_css (rule ++ nl) ;;
  push_css ":root {" ;;
  for_in light light_role ;;
  push_css ("}" ++ nl) ;;
  push_css "@media (prefers-color-scheme: dark) {" ;;
  push_css "  :root {" ;;
  for_in dark dark_role ;;
  push_css "  }" ;;
  push_css ("}" ++ nl) ;;
  push_theme "}" ;;
  fun st =>
    (Normal (cssRawVarsOutput st
               ++ [rule;
                   "/* TOKEN REGISTRATION FOR TAILWIND v4 @theme                    */";
                   rule]
               ++ themeRegistrationOutput st)%list, st).

(** The text handed to [fs.writeFileSync] and the final state, or the
    exception that reaches the [catch] block of the action and the
    state it was raised in. *)
Definition action (light dark : scheme) : completion string * state :=
  match build light dark initial_state with
  | (Normal finalCssOutput, st) => (Normal (join nl finalCssOutput), st)
  | (Abrupt e, st) => (Abrupt e, st)
  end.

End Converter.

(* ------------------------------------------------------------------ *)
(** ** Vocabulary of the statements                                    *)
(* ------------------------------------------------------------------ *)

Fixpoint all_hex_digits (s : string) : bool :=
  match s with
  | EmptyString => true
  | String c rest => is_hex_digit c && all_hex_digits rest
  end.

(** [n] radix-16 digits and nothing else. *)
Definition is_hex_digits (n : nat) (s : string) : bool :=
  (String.length s =? n)%nat && all_hex_digits s.

(** A HEX colour: three or six digits after an optional [#]. *)
Definition is_hex_color (s : string) : bool :=
  let body := if startsWith s "#" then slice1 s else s in
  is_hex_digits 3 body || is_hex_digits 6 body.

(** The number a string of digits denotes in radix 16. *)
Fixpoint hex_value_from (acc : Z) (s : string) : Z :=
  match s with
  | EmptyString => acc
  | String c rest =>
      hex_value_from
        (16 * acc + match hex_digit_val c with Some d => d | None => 0 end)
        rest
  end.

Definition hex_value (s : string) : Z := hex_value_from 0 s.

(** The three bytes of a 24-bit number, most significant first. *)
Definition red_byte (v : Z) : Z := v / 65536.
Definition green_byte (v : Z) : Z := (v / 256) mod 256.
Definition blue_byte (v : Z) : Z := v mod 256.

Definition decimal (z : Z) : string := NilZero.string_of_int (Z.to_int z).

(** The text ["R, G, B"]. *)
Definition rgb_text (r g b : Z) : string :=
  decimal r ++ ", " ++ decimal g ++ ", " ++ decimal b.

Definition with_hash (hash : bool) (h : string) : string :=
  if hash then String "#" h else h.

(** The six-digit form of a three- or six-digit colour. *)
Definition six_digits (h : string) : string :=
  if (String.length h =? 3)%nat then double_chars h else h.

(** The lines of the style sheet, by kind.  [indent] is two spaces in
    the [:root] block and four in the dark block. *)
Definition css_comment (indent roleKebab : string) : string :=
  nl ++ indent ++ "/* --- " ++ hyphens_to_spaces roleKebab ++ " --- */".

Definition css_base (indent roleKebab rgb : string) : string :=
  indent ++ "--md-sys-color-" ++ roleKebab ++ ": " ++ rgb
    ++ "; /* Locked Color */".

Definition css_shade (indent roleKebab : string) (shade : N)
    (shadeHex : value) : string :=
  indent ++ "--md-sys-color-" ++ roleKebab ++ "-" ++ key_to_string shade
    ++ ": " ++ hexToRgbValues shadeHex ++ ";".

Definition theme_comment (roleKebab : string) : string :=
  nl ++ "  /* " ++ hyphens_to_spaces roleKebab ++ " */".

Definition theme_base (roleKebab : string) : string :=
  "  --color-" ++ roleKebab ++ ": var(--md-sys-color-" ++ roleKebab
    ++ "); /* Locked Color */".

Definition theme_shade (roleKebab : string) (shade : N) : string :=
  "  --color-" ++ roleKebab ++ "-" ++ key_to_string shade
    ++ ": var(--md-sys-color-" ++ roleKebab ++ "-" ++ key_to_string shade
    ++ ");".

(** The frame of the style sheet around the two loops. *)
Definition root_opening : list string :=
  [rule;
   "/* MATERIAL DESIGN COLOR TOKENS (LIGHT & DARK)                  */";
   rule ++ nl;
   ":root {"].

Definition dark_opening : list string :=
  ["}" ++ nl; "@media (prefers-color-scheme: dark) {"; "  :root {"].

Definition dark_closing : list string := ["  }"; "}" ++ nl].

Definition registration_heading : list string :=
  [rule;
   "/* TOKEN REGISTRATION FOR TAILWIND v4 @theme                    */";
   rule].

(** [palette[shade]] for each of the given shades. *)
Definition shade_values (palette : object) (keys : list N) : list value :=
  map (fun shade => obj_get shade palette) keys.

(** The style sheet as section 6 of the specification describes it,
    role by role; the properties below compare it with what the action
    pushes into its buffers. *)
Section Description.

Context {lib : Chroma}.

(** The library throws somewhere in the [try] block for this base. *)
Definition interpolation_throws (base : value) (error : chroma_error)
  : Prop :=
  scale_colors (VString "#FFFFFF") base "lch" None 3 = Throws error
  \/ (exists lighter,
        scale_colors (VString "#FFFFFF") base "lch" None 3 = Returns lighter
        /\ scale_colors base (VString "#09090b") "lch"
             (Some (1 # 10, 1 # 4)%Q) 10 = Throws error).

(** The shade entries a role contributes: those of its palette, none
    for a role of the skip list or when the palette is [null]. *)
Definition shade_entries (role : string) (colorHex : value) : object :=
  if includes KEYS_TO_SKIP role then []
  else match try_palette colorHex with
       | Returns palette => palette
       | Throws _ => []
       end.

(** The diagnostic a role causes: one when the library throws for a
    role that is not on the skip list, provided its message can be
    built. *)
Definition diagnostics (role : string) (colorHex : value)
  : list diagnostic :=
  if includes KEYS_TO_SKIP role then []
  else match try_palette colorHex with
       | Returns _ => []
       | Throws error =>
           if throws_on_ToString colorHex then []
           else [ErrorGeneratingPalette colorHex error]
       end.

(** The entries on which the action stops: a role that is not on the
    skip list, a library that throws for its base colour, and a base
    colour that cannot be converted to a string for the message. *)
Definition stops_at (entry : string * value) : bool :=
  negb (includes KEYS_TO_SKIP (fst entry))
  && match try_palette (snd entry) with
     | Returns _ => false
     | Throws _ => throws_on_ToString (snd entry)
     end.

(** What one role contributes to each block. *)
Definition root_lines (indent : string) (entry : string * value)
  : list string :=
  let '(role, colorHex) := entry in
  let roleKebab := toKebabCase role in
  (css_comment indent roleKebab
     :: css_base indent roleKebab (hexToRgbValues colorHex)
     :: map (fun entry => css_shade indent roleKebab (fst entry) (snd entry))
          (shade_entries role colorHex))%list.

Definition registration_lines (entry : string * value) : list string :=
  let '(role, colorHex) := entry in
  let roleKebab := toKebabCase role in
  (theme_comment roleKebab
     :: theme_base roleKebab
     :: map (fun entry => theme_shade roleKebab (fst entry))
          (shade_entries role colorHex))%list.

Definition role_diagnostics (entry : string * value) : list diagnostic :=
  diagnostics (fst entry) (snd entry).

End Description.

(* ------------------------------------------------------------------ *)
(** ** A stand-in library for concrete runs                            *)
(* ------------------------------------------------------------------ *)

(** [grey i] is the grey whose six digits are all the digit [i mod 16]. *)
Definition grey (i : nat) : string :=
  let c := match get (i mod 16) "0123456789abcdef" with
           | Some c => c
           | None => "0"%char
           end in
  String "#" (String c (String c (String c (String c (String c (String c "")))))).

(** A library that rejects whatever is not a HEX colour string and
    otherwise returns [n] greys.  It only serves to run the converter on
    concrete themes: the general statements below hold for every
    library. *)
Definition grey_scale_colors (c1 c2 : value) (mode : string)
    (padding : option (Q * Q)) (n : nat) : result string (list string) :=
  match c1, c2 with
  | VString s1, VString s2 =>
      if is_hex_color s1 && is_hex_color s2
      then Returns (map grey (seq 0 n))
      else Throws "unknown hex color"
  | _, _ => Throws "unknown format"
  end.

Definition grey_library : Chroma :=
  {| chroma_error := string; scale_colors := grey_scale_colors |}.

(** A library that takes every value as a colour, the way chroma-js
    takes colour names and numbers besides HEX strings, and returns [n]
    greys. *)
Definition lenient_scale_colors (c1 c2 : value) (mode : string)
    (padding : option (Q * Q)) (n : nat) : result string (list string) :=
  Returns (map grey (seq 0 n)).

Definition lenient_library : Chroma :=
  {| chroma_error := string; scale_colors := lenient_scale_colors |}.

(** The theme of the README. *)
Definition readme_light : scheme :=
  [("primary", VString "#6750A4"); ("surface", VString "#FFFBFE")].

Definition readme_dark : scheme :=
  [("primary", VString "#D0BCFF"); ("surface", VString "#1C1B1F")].

(** The text of a block that ended normally. *)
Definition text_of (c : completion string) : string :=
  match c with
  | Normal content => content
  | Abrupt _ => ""
  end.

(* ------------------------------------------------------------------ *)
(** ** The parsed document                                             *)
(* ------------------------------------------------------------------ *)

(** [schemes.light] and [schemes.dark]: reading the property [name] of
    the parsed document, for a name that no built-in object defines.
    [None] is the [TypeError] of reading a property of [null]; a value
    without that property gives [undefined].  The fields of an object
    are its own properties, each name once. *)
Definition get_scheme (schemes : value) (name : string) : option value :=
  match schemes with
  | VUndefined | VNull => None
  | VObject fields =>
      Some match find (fun field => String.eqb (fst field) name) fields with
           | Some field => snd field
           | None => VUndefined
           end
  | _ => Some VUndefined
  end.

(** The elements of an array, or the code units of a string, under
    their indices. *)
Fixpoint indexed (i : nat) (items : list value) : scheme :=
  match items with
  | [] => []
  | item :: rest => (key_to_string (N.of_nat i), item) :: indexed (S i) rest
  end.

Fixpoint code_units (s : string) : list value :=
  match s with
  | EmptyString => []
  | String c rest => VString (String c "") :: code_units rest
  end.

(** What [for (const role in v)] visits, with [v[role]]: the fields of
    an object in the order of its properties, the elements of an array,
    the code units of a string, and nothing for the other values
    ([undefined] and [null] included). *)
Definition own_entries (v : value) : scheme :=
  match v with
  | VObject fields => fields
  | VArray items => indexed 0 items
  | VString s => indexed 0 (code_units s)
  | _ => []
  end.

(** How the action ends: it reaches [fs.writeFileSync] with a text,
    having written these diagnostics, or it lands in its [catch] block,
    reports the error and calls [process.exit(1)] without writing a
    file, the diagnostics written until then staying written. *)
Inductive outcome {lib : Chroma} : Type :=
| WritesFile (content : string) (errors : list diagnostic)
| ExitsWithFailure (errors : list diagnostic).

(** Steps 2 to 4 of the action, from the result of
    [JSON.parse(fs.readFileSync(inputPath, 'utf8'))]: [schemes.light] is
    read before the first loop and [schemes.dark] before the second. *)
Definition run {lib : Chroma} {E : Type} (parsed : result E value)
  : outcome :=
  match parsed with
  | Throws _ => ExitsWithFailure []
  | Returns schemes =>
      match get_scheme schemes "light" with
      | None => ExitsWithFailure []
      | Some light =>
          match get_scheme schemes "dark" with
          | None => ExitsWithFailure []
          | Some dark =>
              match action (own_entries light) (own_entries dark) with
              | (Normal content, st) => WritesFile content (stderr st)
              | (Abrupt _, st) => ExitsWithFailure (stderr st)
              end
          end
      end
  end.

(* ------------------------------------------------------------------ *)
(** ** Vocabulary of the further properties                            *)
(* ------------------------------------------------------------------ *)

(** The 256 code units of the embedding, to settle a property of one or
    two code units by running the code on all of them. *)
Definition all_ascii : list ascii := map ascii_of_nat (seq 0 256).

Definition for_all_pairs (p : ascii -> ascii -> bool) : bool :=
  forallb (fun a => forallb (p a) all_ascii) all_ascii.

(** A component of the text: [NaN], or an integer from -15 to 255. *)
Definition is_component (n : number) : bool :=
  match n with
  | None => true
  | Some z => (-15 <=? z) && (z <=? 255)
  end.

(** No letter A-Z. *)
Fixpoint no_upper (s : string) : bool :=
  match s with
  | EmptyString => true
  | String c rest => negb (is_upper c) && no_upper rest
  end.

(* ------------------------------------------------------------------ *)
(** ** Properties of hexToRgbValues                                    *)
(* ------------------------------------------------------------------ *)

(** A digit is neither white space, nor a sign, nor the [x] of a
    prefix, and its value is below 16. *)
Lemma hex_digit_val_spec (c : ascii) (d : Z) :
  hex_digit_val c = Some d ->
  is_white_space c = false /\ c <> "-"%char /\ c <> "+"%char
  /\ c <> "x"%char /\ c <> "X"%char /\ 0 <= d <= 15.
Proof.
  destruct c as [[] [] [] [] [] [] [] []]; vm_compute; intros H;
    try discriminate H; injection H as <-;
    repeat split; try discriminate; reflexivity.
Qed.

Lemma is_hex_digit_val (c : ascii) :
  is_hex_digit c = true -> exists d, hex_digit_val c = Some d.
Proof.
  unfold is_hex_digit. destruct (hex_digit_val c) as [d|]; [eauto | discriminate].
Qed.

(** Two digits parse to the byte they denote. *)
Lemma parseInt16_two_digits (a b : ascii) (da db : Z) :
  hex_digit_val a = Some da -> hex_digit_val b = Some db ->
  parseInt16 (String a (String b "")) = Some (16 * da + db).
Proof.
  intros Ha Hb.
  destruct (hex_digit_val_spec a da Ha) as (Wa & Ma & Pa & _).
  destruct (hex_digit_val_spec b db Hb) as (_ & _ & _ & Xb & XXb & _).
  unfold parseInt16. cbn [trim_start]. rewrite Wa.
  assert (Hsign :
    match String a (String b "") with
    | String "-" rest => (-1, rest)
    | String "+" rest => (1, rest)
    | _ => (1, String a (String b ""))
    end = (1, String a (String b ""))).
  { destruct a as [[] [] [] [] [] [] [] []]; try reflexivity; congruence. }
  rewrite Hsign.
  assert (Hprefix :
    match String a (String b "") with
    | String "0" (String "x" rest) => rest
    | String "0" (String "X" rest) => rest
    | _ => String a (String b "")
    end = String a (String b "")).
  { destruct a as [[] [] [] [] [] [] [] []]; try reflexivity;
      destruct b as [[] [] [] [] [] [] [] []]; try reflexivity; congruence. }
  rewrite Hprefix. cbn [parse_digits]. rewrite Ha, Hb.
  f_equal. lia.
Qed.

Lemma startsWith_hash (rest : string) :
  startsWith (String "#" rest) "#" = true.
Proof. destruct rest; reflexivity. Qed.

Lemma hex_digit_not_hash (c : ascii) :
  is_hex_digit c = true -> startsWith (String c "") "#" = false
                           /\ forall rest, startsWith (String c rest) "#" = false.
Proof.
  intros H. assert (c <> "#"%char) as Hne.
  { intros ->. discriminate H. }
  unfold startsWith. split; [|intros rest]; cbn [String.prefix];
    destruct (ascii_dec "#" c) as [E|_]; try reflexivity; congruence.
Qed.

(** A string of exactly six digits, taken apart. *)
Lemma is_hex_digits_6_inv (h : string) :
  is_hex_digits 6 h = true ->
  exists c1 c2 c3 c4 c5 c6 d1 d2 d3 d4 d5 d6,
    h = String c1 (String c2 (String c3 (String c4 (String c5 (String c6 "")))))
    /\ hex_digit_val c1 = Some d1 /\ hex_digit_val c2 = Some d2
    /\ hex_digit_val c3 = Some d3 /\ hex_digit_val c4 = Some d4
    /\ hex_digit_val c5 = Some d5 /\ hex_digit_val c6 = Some d6.
Proof.
  unfold is_hex_digits. intros H. apply andb_prop in H as [Hlen Hall].
  destruct h as [|c1 [|c2 [|c3 [|c4 [|c5 [|c6 [|c7 h]]]]]]]; try discriminate Hlen.
  cbn [all_hex_digits] in Hall.
  repeat (apply andb_prop in Hall as [?H Hall]).
  repeat match goal with
         | D : is_hex_digit _ = true |- _ =>
             apply is_hex_digit_val in D as [? ?]
         end.
  do 12 eexists. repeat split; eassumption.
Qed.

Lemma is_hex_digits_3_inv (h : string) :
  is_hex_digits 3 h = true ->
  exists c1 c2 c3,
    h = String c1 (String c2 (String c3 ""))
    /\ is_hex_digit c1 = true /\ is_hex_digit c2 = true
    /\ is_hex_digit c3 = true.
Proof.
  unfold is_hex_digits. intros H. apply andb_prop in H as [Hlen Hall].
  destruct h as [|c1 [|c2 [|c3 [|c4 h]]]]; try discriminate Hlen.
  cbn [all_hex_digits] in Hall.
  repeat (apply andb_prop in Hall as [?H Hall]).
  exists c1, c2, c3. repeat split; assumption.
Qed.

Lemma double_chars_hex (h : string) :
  is_hex_digits 3 h = true -> is_hex_digits 6 (double_chars h) = true.
Proof.
  intros H. destruct (is_hex_digits_3_inv h H) as (c1 & c2 & c3 & -> & H1 & H2 & H3).
  unfold is_hex_digits. cbn. rewrite H1, H2, H3. reflexivity.
Qed.

(** The conversion of six digits, with or without the [#]. *)
Lemma hexToRgbValues_six_digits (h : string) (hash : bool) :
  is_hex_digits 6 h = true ->
  let v := hex_value h in
  (0 <= red_byte v <= 255 /\ 0 <= green_byte v <= 255
   /\ 0 <= blue_byte v <= 255)
  /\ hexToRgbValues (VString (with_hash hash h))
     = rgb_text (red_byte v) (green_byte v) (blue_byte v).
Proof.
  intros H.
  destruct (is_hex_digits_6_inv h H)
    as (c1 & c2 & c3 & c4 & c5 & c6 & d1 & d2 & d3 & d4 & d5 & d6
        & -> & H1 & H2 & H3 & H4 & H5 & H6).
  pose proof (hex_digit_val_spec _ _ H1) as (_ & _ & _ & _ & _ & B1).
  pose proof (hex_digit_val_spec _ _ H2) as (_ & _ & _ & _ & _ & B2).
  pose proof (hex_digit_val_spec _ _ H3) as (_ & _ & _ & _ & _ & B3).
  pose proof (hex_digit_val_spec _ _ H4) as (_ & _ & _ & _ & _ & B4).
  pose proof (hex_digit_val_spec _ _ H5) as (_ & _ & _ & _ & _ & B5).
  pose proof (hex_digit_val_spec _ _ H6) as (_ & _ & _ & _ & _ & B6).
  assert (Hv : hex_value
                 (String c1 (String c2 (String c3 (String c4 (String c5 (String c6 ""))))))
               = 65536 * (16 * d1 + d2) + (256 * (16 * d3 + d4) + (16 * d5 + d6))).
  { unfold hex_value. cbn [hex_value_from]. rewrite H1, H2, H3, H4, H5, H6. lia. }
  cbv zeta. rewrite Hv.
  assert (Hr : red_byte (65536 * (16 * d1 + d2)
                         + (256 * (16 * d3 + d4) + (16 * d5 + d6)))
               = 16 * d1 + d2).
  { unfold red_byte. symmetry.
    apply Z.div_unique with (r := 256 * (16 * d3 + d4) + (16 * d5 + d6)); lia. }
  assert (Hg : green_byte (65536 * (16 * d1 + d2)
                           + (256 * (16 * d3 + d4) + (16 * d5 + d6)))
               = 16 * d3 + d4).
  { unfold green_byte.
    replace ((65536 * (16 * d1 + d2)
              + (256 * (16 * d3 + d4) + (16 * d5 + d6))) / 256)
      with (256 * (16 * d1 + d2) + (16 * d3 + d4)).
    - symmetry. apply Z.mod_unique with (q := 16 * d1 + d2); lia.
    - apply Z.div_unique with (r := 16 * d5 + d6); lia. }
  assert (Hb : blue_byte (65536 * (16 * d1 + d2)
                          + (256 * (16 * d3 + d4) + (16 * d5 + d6)))
               = 16 * d5 + d6).
  { unfold blue_byte. symmetry.
    apply Z.mod_unique with (q := 256 * (16 * d1 + d2) + (16 * d3 + d4)); lia. }
  rewrite Hr, Hg, Hb. split; [lia|].
  assert (Hd1 : is_hex_digit c1 = true) by (unfold is_hex_digit; now rewrite H1).
  destruct (hex_digit_not_hash c1 Hd1) as [_ Hnh].
  destruct hash; unfold with_hash, hexToRgbValues;
    cbn [String.length Nat.eqb];
    [rewrite startsWith_hash; cbn [slice1] | rewrite Hnh];
    cbn [String.length Nat.eqb negb substring Nat.sub String.substring];
    rewrite (parseInt16_two_digits c1 c2 d1 d2 H1 H2),
            (parseInt16_two_digits c3 c4 d3 d4 H3 H4),
            (parseInt16_two_digits c5 c6 d5 d6 H5 H6);
    reflexivity.
Qed.

(** Three digits convert like the six digits obtained by doubling each. *)
Lemma hexToRgbValues_three_digits (h : string) (hash : bool) :
  is_hex_digits 3 h = true ->
  hexToRgbValues (VString (with_hash hash h))
  = hexToRgbValues (VString (double_chars h)).
Proof.
  intros H.
  destruct (is_hex_digits_3_inv h H) as (c1 & c2 & c3 & -> & H1 & _ & _).
  destruct (hex_digit_not_hash c1 H1) as [_ Hnh].
  destruct hash; unfold with_hash, hexToRgbValues;
    cbn [String.length Nat.eqb double_chars];
    [rewrite startsWith_hash; cbn [slice1] | ];
    rewrite !Hnh; reflexivity.
Qed.

(** X1.  Whatever is not a string, the empty string, and every string
    whose length without a leading [#] is neither 3 nor 6 converts to
    black. *)
Lemma hexToRgbValues_fallback (hex : value) :
  (forall s, hex = VString s ->
     s = ""
     \/ (let clean := if startsWith s "#" then slice1 s else s in
         String.length clean <> 3%nat /\ String.length clean <> 6%nat)) ->
  hexToRgbValues hex = "0, 0, 0".
Proof.
  intros H. destruct hex as [| | | |s| |]; try reflexivity.
  destruct (H s eq_refl) as [-> | [H3 H6]]; [reflexivity|].
  unfold hexToRgbValues.
  destruct (String.length s =? 0)%nat; [reflexivity|].
  destruct (Nat.eqb_spec
              (String.length (if startsWith s "#" then slice1 s else s)) 3)
    as [E|_]; [contradiction|].
  destruct (Nat.eqb_spec
              (String.length (if startsWith s "#" then slice1 s else s)) 6)
    as [E|_]; [contradiction|].
  reflexivity.
Qed.

(** The three inputs the specification lists: the empty string, [null]
    and a string of two digits. *)
Example hexToRgbValues_listed_fallbacks :
  hexToRgbValues (VString "") = "0, 0, 0"
  /\ hexToRgbValues VNull = "0, 0, 0"
  /\ hexToRgbValues (VString "12") = "0, 0, 0".
Proof. repeat split. Qed.

(** C2.  [hexToRgbValues] is documented to return ["0, 0, 0"] on error,
    and guards its parsing with a [catch] that returns that text; but
    [parseInt] reports a string without digits by returning [NaN], not by
    throwing, so a malformed colour of the right length is not mapped to
    black: six code units that are not digits give ["NaN, NaN, NaN"],
    and a pair of code units may even parse to a negative number. *)
Theorem hexToRgbValues_malformed_not_black :
  hexToRgbValues (VString "zzzzzz") = "NaN, NaN, NaN"
  /\ hexToRgbValues (VString "zzzzzz") <> "0, 0, 0"
  /\ hexToRgbValues (VString "#GGG") = "NaN, NaN, NaN"
  /\ hexToRgbValues (VString "-1+20x") = "-1, 2, NaN".
Proof. repeat split; discriminate. Qed.

(** C6.  A colour of six digits, with or without [#], converts to the
    text "R, G, B" of the three bytes of the number it denotes, each in
    0..255; a colour of three digits converts as the six digits obtained
    by doubling each digit. *)
Theorem hexToRgbValues_valid_hex (h : string) (hash : bool) :
  is_hex_digits 3 h = true \/ is_hex_digits 6 h = true ->
  let v := hex_value (six_digits h) in
  (0 <= red_byte v <= 255 /\ 0 <= green_byte v <= 255
   /\ 0 <= blue_byte v <= 255)
  /\ hexToRgbValues (VString (with_hash hash h))
     = rgb_text (red_byte v) (green_byte v) (blue_byte v)
  /\ hexToRgbValues (VString (with_hash hash h))
     = hexToRgbValues (VString (six_digits h)).
Proof.
  intros [H3 | H6].
  - assert (Hsix : six_digits h = double_chars h).
    { unfold six_digits. unfold is_hex_digits in H3.
      apply andb_prop in H3 as [-> _]. reflexivity. }
    rewrite Hsix. cbv zeta.
    pose proof (hexToRgbValues_six_digits (double_chars h) false
                  (double_chars_hex h H3)) as [Hb Heq].
    cbn [with_hash] in Heq.
    rewrite (hexToRgbValues_three_digits h hash H3).
    repeat split; try apply Hb; exact Heq.
  - assert (Hsix : six_digits h = h).
    { unfold six_digits. unfold is_hex_digits in H6.
      apply andb_prop in H6 as [Hlen _].
      apply Nat.eqb_eq in Hlen. rewrite Hlen. reflexivity. }
    rewrite Hsix. cbv zeta.
    pose proof (hexToRgbValues_six_digits h hash H6) as [Hb Heq].
    pose proof (hexToRgbValues_six_digits h false H6) as [_ Heq'].
    cbn [with_hash] in Heq'.
    repeat split; try apply Hb; [exact Heq | congruence].
Qed.

(** The example of the specification: [f53] converts like [ff5533]. *)
Lemma hexToRgbValues_valid_hex_witness :
  hexToRgbValues (VString "f53") = "255, 85, 51"
  /\ hexToRgbValues (VString "f53") = hexToRgbValues (VString "ff5533").
Proof.
  pose proof (hexToRgbValues_valid_hex "f53" false (or_introl eq_refl))
    as (_ & Hrgb & Hsix).
  split; [exact Hrgb | exact Hsix].
Defined.

(* ------------------------------------------------------------------ *)
(** ** Properties of the object model                                  *)
(* ------------------------------------------------------------------ *)

Lemma nth_tl {A} (i : nat) (l : list A) (d : A) :
  nth i (tl l) d = nth (S i) l d.
Proof. destruct l; [destruct i|]; reflexivity. Qed.

Lemma obj_get_set_same (k : N) (v : value) (o : object) :
  obj_get k (obj_set k v o) = v.
Proof.
  induction o as [|[k' v'] o IH]; cbn.
  - now rewrite N.eqb_refl.
  - destruct (N.ltb_spec k k') as [Hlt|Hge]; cbn.
    + now rewrite N.eqb_refl.
    + destruct (N.eqb_spec k k') as [->|Hne]; cbn.
      * now rewrite N.eqb_refl.
      * destruct (N.eqb_spec k k'); [contradiction | exact IH].
Qed.

Lemma obj_get_set_other (k k0 : N) (v : value) (o : object) :
  k0 <> k -> obj_get k0 (obj_set k v o) = obj_get k0 o.
Proof.
  intros Hne. induction o as [|[k' v'] o IH]; cbn.
  - destruct (N.eqb_spec k0 k); [contradiction | reflexivity].
  - destruct (N.ltb_spec k k') as [Hlt|Hge]; cbn.
    + destruct (N.eqb_spec k0 k); [contradiction | reflexivity].
    + destruct (N.eqb_spec k k') as [->|Hne']; cbn.
      * destruct (N.eqb_spec k0 k'); [contradiction | reflexivity].
      * destruct (N.eqb_spec k0 k'); [reflexivity | exact IH].
Qed.

(** Every key of [obj_set k v o] is [k] or a key of [o]. *)
Lemma obj_set_keys_in (k k0 : N) (v : value) (o : object) :
  In k0 (obj_keys (obj_set k v o)) -> k0 = k \/ In k0 (obj_keys o).
Proof.
  induction o as [|[k' v'] o IH]; cbn.
  - intros [<-|[]]. now left.
  - destruct (N.ltb_spec k k') as [Hlt|Hge]; cbn.
    + intros [<-|H]; [now left | now right].
    + destruct (N.eqb_spec k k') as [->|Hne]; cbn.
      * intros [<-|H]; [now left | right; now right].
      * intros [<-|H]; [right; now left|].
        destruct (IH H) as [->|H']; [now left | right; now right].
Qed.

(** An assignment keeps the property names in ascending order: the
    order in which the names were assigned never shows. *)
Lemma obj_set_ascending (k : N) (v : value) (o : object) :
  StronglySorted N.lt (obj_keys o) ->
  StronglySorted N.lt (obj_keys (obj_set k v o)).
Proof.
  induction o as [|[k' v'] o IH]; cbn; intros Hs.
  - repeat constructor.
  - inversion Hs as [|? ? Hs' Hall]; subst.
    destruct (N.ltb_spec k k') as [Hlt|Hge]; cbn.
    + constructor; [exact Hs|].
      constructor; [exact Hlt|].
      apply Forall_forall. intros x Hx.
      rewrite Forall_forall in Hall. specialize (Hall x Hx). lia.
    + destruct (N.eqb_spec k k') as [->|Hne]; cbn.
      * constructor; assumption.
      * constructor; [apply IH; exact Hs'|].
        apply Forall_forall. intros x Hx.
        destruct (obj_set_keys_in _ _ _ _ Hx) as [->|Hin]; [lia|].
        rewrite Forall_forall in Hall. exact (Hall x Hin).
Qed.

(* ------------------------------------------------------------------ *)
(** ** Properties of the loops                                         *)
(* ------------------------------------------------------------------ *)

Lemma bind_normal {S A B} (c : M S A) (k : A -> M S B) (st st' : S)
    (a : A) :
  c st = (Normal a, st') -> bind c k st = k a st'.
Proof. unfold bind. intros ->. reflexivity. Qed.

Lemma bind_abrupt {S A B} (c : M S A) (k : A -> M S B) (st st' : S)
    (e : thrown) :
  c st = (Abrupt e, st') -> bind c k st = (Abrupt e, st').
Proof. unfold bind. intros ->. reflexivity. Qed.

(** A loop over two lists of entries runs the second part where the
    first part ended, unless the first part ended abruptly. *)
Lemma for_in_app {S K V} (o1 o2 : list (K * V)) (body : K -> V -> M S unit)
    (st : S) :
  for_in (o1 ++ o2)%list body st
  = match for_in o1 body st with
    | (Normal _, st') => for_in o2 body st'
    | (Abrupt e, st') => (Abrupt e, st')
    end.
Proof.
  revert st. induction o1 as [|[key v] o1 IH]; intros st; cbn [for_in app].
  - reflexivity.
  - unfold bind. destruct (body key v st) as [[[]|e] st'];
      [apply IH | reflexivity].
Qed.

Section Properties.

Context {lib : Chroma}.

(** The palette, when both library calls return: the samples are read by
    position, a missing one being [undefined]. *)
Lemma try_palette_returns (base : value) (lighter darker : list string) :
  scale_colors (VString "#FFFFFF") base "lch" None 3 = Returns lighter ->
  scale_colors base (VString "#09090b") "lch" (Some (1 # 10, 1 # 4)%Q) 10
  = Returns darker ->
  try_palette base =
  Returns
    [(50, array_get (map VString lighter) 1); (100, base);
     (200, array_get (map VString darker) 1);
     (300, array_get (map VString darker) 2);
     (400, array_get (map VString darker) 3);
     (500, array_get (map VString darker) 4);
     (600, array_get (map VString darker) 5);
     (700, array_get (map VString darker) 6);
     (800, array_get (map VString darker) 7);
     (900, array_get (map VString darker) 8);
     (950, array_get (map VString darker) 9)]%N.
Proof.
  intros H1 H2. unfold try_palette. rewrite H1, H2.
  cbv [shades forEach_assign empty_object].
  cbn [obj_set N.ltb N.eqb N.compare Pos.compare Pos.compare_cont Pos.eqb].
  unfold array_get, array_slice1. cbn [nth]. rewrite !nth_tl. reflexivity.
Qed.

(** A palette that was returned came from two calls that returned. *)
Lemma try_palette_inv (base : value) (palette : object) :
  try_palette base = Returns palette ->
  exists lighter darker,
    scale_colors (VString "#FFFFFF") base "lch" None 3 = Returns lighter
    /\ scale_colors base (VString "#09090b") "lch"
         (Some (1 # 10, 1 # 4)%Q) 10 = Returns darker.
Proof.
  unfold try_palette. intros H.
  destruct (scale_colors (VString "#FFFFFF") base "lch" None 3)
    as [lighter|e]; [|discriminate].
  destruct (scale_colors base (VString "#09090b") "lch"
              (Some (1 # 10, 1 # 4)%Q) 10) as [darker|e]; [|discriminate].
  eauto.
Qed.

Lemma try_palette_throws (base : value) (error : chroma_error) :
  interpolation_throws base error -> try_palette base = Throws error.
Proof.
  unfold try_palette. intros [H | (lighter & H1 & H2)].
  - now rewrite H.
  - now rewrite H1, H2.
Qed.

(** The property names of a palette are the eleven shades, ascending. *)
Lemma try_palette_keys (base : value) (palette : object) :
  try_palette base = Returns palette -> obj_keys palette = shades.
Proof.
  intros H. destruct (try_palette_inv base palette H) as (l & d & H1 & H2).
  rewrite (try_palette_returns base l d H1 H2) in H.
  injection H as <-. reflexivity.
Qed.

Lemma createTonalPaletteFrom100_returns (base : value) (palette : object)
    (st : state) :
  try_palette base = Returns palette ->
  createTonalPaletteFrom100 base st = (Normal (Some palette), st).
Proof. unfold createTonalPaletteFrom100. intros ->. reflexivity. Qed.

(** The [catch] block when its message can be built. *)
Lemma createTonalPaletteFrom100_throws (base : value)
    (error : chroma_error) (st : state) :
  try_palette base = Throws error ->
  throws_on_ToString base = false ->
  createTonalPaletteFrom100 base st
  = (Normal None,
     mkState (cssRawVarsOutput st) (themeRegistrationOutput st)
             (stderr st ++ [ErrorGeneratingPalette base error])%list).
Proof.
  unfold createTonalPaletteFrom100, error_message. intros -> ->. reflexivity.
Qed.

(** The [catch] block when its message cannot be built: the exception
    leaves the function before anything is written. *)
Lemma createTonalPaletteFrom100_leaves (base : value)
    (error : chroma_error) (st : state) :
  try_palette base = Throws error ->
  throws_on_ToString base = true ->
  createTonalPaletteFrom100 base st = (Abrupt (TypeError base), st).
Proof.
  unfold createTonalPaletteFrom100, error_message. intros -> ->. reflexivity.
Qed.

Lemma createTonalPaletteFrom100_some (base : value) (palette : object)
    (st : state) :
  fst (createTonalPaletteFrom100 base st) = Normal (Some palette) ->
  try_palette base = Returns palette.
Proof.
  unfold createTonalPaletteFrom100, error_message.
  destruct (try_palette base) as [p|e]; cbn; [congruence|].
  destruct (throws_on_ToString base); discriminate.
Qed.

(** Running a push followed by the rest of the block. *)
Lemma push_css_then {A} (line : string) (k : M state A) (st : state) :
  (push_css line ;; k) st
  = k (mkState (cssRawVarsOutput st ++ [line])%list
               (themeRegistrationOutput st) (stderr st)).
Proof. reflexivity. Qed.

Lemma push_theme_then {A} (line : string) (k : M state A) (st : state) :
  (push_theme line ;; k) st
  = k (mkState (cssRawVarsOutput st)
               (themeRegistrationOutput st ++ [line])%list (stderr st)).
Proof. reflexivity. Qed.

(** Keep the state in constructor form while stepping through a block,
    so that its three fields are not copied at every push. *)
Ltac project_state :=
  cbn [cssRawVarsOutput themeRegistrationOutput stderr].

Ltac push_step :=
  (rewrite push_css_then || rewrite push_theme_then); project_state.

(** The inner loop of the light scheme pushes one declaration and one
    registration per property of the palette, in the order of the
    properties. *)
Lemma light_shades_run (roleKebab : string) (palette : object) (st : state) :
  for_in palette (fun shade shadeHex =>
    push_css ("  --md-sys-color-" ++ roleKebab ++ "-" ++ key_to_string shade
                ++ ": " ++ hexToRgbValues shadeHex ++ ";") ;;
    push_theme ("  --color-" ++ roleKebab ++ "-" ++ key_to_string shade
                  ++ ": var(--md-sys-color-" ++ roleKebab ++ "-"
                  ++ key_to_string shade ++ ");")) st
  = (Normal tt,
     mkState
       (cssRawVarsOutput st
          ++ map (fun e => css_shade "  " roleKebab (fst e) (snd e)) palette)
       (themeRegistrationOutput st
          ++ map (fun e => theme_shade roleKebab (fst e)) palette)
       (stderr st))%list.
Proof.
  revert st. induction palette as [|[shade shadeHex] palette IH]; intros st.
  - cbn. rewrite !app_nil_r. now destruct st.
  - cbn [for_in]. erewrite bind_normal; [|reflexivity].
    rewrite IH. project_state. cbn [map fst snd].
    rewrite <- !app_assoc. reflexivity.
Qed.

Lemma dark_shades_run (roleKebab : string) (palette : object) (st : state) :
  for_in palette (fun shade shadeHex =>
    push_css ("    --md-sys-color-" ++ roleKebab ++ "-" ++ key_to_string shade
                ++ ": " ++ hexToRgbValues shadeHex ++ ";")) st
  = (Normal tt,
     mkState
       (cssRawVarsOutput st
          ++ map (fun e => css_shade "    " roleKebab (fst e) (snd e)) palette)
       (themeRegistrationOutput st)
       (stderr st))%list.
Proof.
  revert st. induction palette as [|[shade shadeHex] palette IH]; intros st.
  - cbn. rewrite !app_nil_r. now destruct st.
  - cbn [for_in]. erewrite bind_normal; [|reflexivity].
    rewrite IH. project_state. cbn [map fst snd].
    rewrite <- !app_assoc. reflexivity.
Qed.

(** One turn of the loop over the light scheme.  It ends abruptly on an
    entry the action stops at, after the two lines of the role have been
    pushed to each buffer. *)
Lemma light_role_run (role : string) (colorHex : value) (st : state) :
  light_role role colorHex st
  = (if stops_at (role, colorHex) then Abrupt (TypeError colorHex)
     else Normal tt,
     mkState
       (cssRawVarsOutput st ++ root_lines "  " (role, colorHex))
       (themeRegistrationOutput st ++ registration_lines (role, colorHex))
       (stderr st ++ diagnostics role colorHex))%list.
Proof.
  unfold light_role, root_lines, registration_lines, shade_entries,
    diagnostics, stops_at. cbv zeta. cbn [fst snd].
  rewrite !push_css_then, !push_theme_then. project_state.
  destruct (includes KEYS_TO_SKIP role); cbn [negb andb].
  - unfold ret. cbn [map]. rewrite <- !app_assoc, app_nil_r. reflexivity.
  - destruct (try_palette colorHex) as [palette|error] eqn:Htry.
    + erewrite bind_normal
        by (apply createTonalPaletteFrom100_returns; exact Htry).
      cbv beta iota. rewrite light_shades_run. project_state.
      rewrite <- !app_assoc, app_nil_r. reflexivity.
    + destruct (throws_on_ToString colorHex) eqn:Hts.
      * erewrite bind_abrupt
          by (eapply createTonalPaletteFrom100_leaves; eassumption).
        cbn [map]. rewrite <- !app_assoc, app_nil_r. reflexivity.
      * erewrite bind_normal
          by (eapply createTonalPaletteFrom100_throws; eassumption).
        cbv beta iota. unfold ret. project_state. cbn [map].
        rewrite <- !app_assoc. reflexivity.
Qed.

(** One turn of the loop over the dark scheme: nothing is registered. *)
Lemma dark_role_run (role : string) (colorHex : value) (st : state) :
  dark_role role colorHex st
  = (if stops_at (role, colorHex) then Abrupt (TypeError colorHex)
     else Normal tt,
     mkState
       (cssRawVarsOutput st ++ root_lines "    " (role, colorHex))
       (themeRegistrationOutput st)
       (stderr st ++ diagnostics role colorHex))%list.
Proof.
  unfold dark_role, root_lines, shade_entries, diagnostics, stops_at.
  cbv zeta. cbn [fst snd].
  rewrite !push_css_then. project_state.
  destruct (includes KEYS_TO_SKIP role); cbn [negb andb].
  - unfold ret. cbn [map]. rewrite <- !app_assoc, app_nil_r. reflexivity.
  - destruct (try_palette colorHex) as [palette|error] eqn:Htry.
    + erewrite bind_normal
        by (apply createTonalPaletteFrom100_returns; exact Htry).
      cbv beta iota. rewrite dark_shades_run. project_state.
      rewrite <- !app_assoc, app_nil_r. reflexivity.
    + destruct (throws_on_ToString colorHex) eqn:Hts.
      * erewrite bind_abrupt
          by (eapply createTonalPaletteFrom100_leaves; eassumption).
        cbn [map]. rewrite <- !app_assoc, app_nil_r. reflexivity.
      * erewrite bind_normal
          by (eapply createTonalPaletteFrom100_throws; eassumption).
        cbv beta iota. unfold ret. project_state. cbn [map].
        rewrite <- !app_assoc. reflexivity.
Qed.

(** The two outer loops, when no entry stops them. *)
Lemma light_loop_run (light : scheme) (st : state) :
  existsb stops_at light = false ->
  for_in light light_role st
  = (Normal tt,
     mkState
       (cssRawVarsOutput st ++ flat_map (root_lines "  ") light)
       (themeRegistrationOutput st ++ flat_map registration_lines light)
       (stderr st ++ flat_map role_diagnostics light))%list.
Proof.
  revert st. induction light as [|[role colorHex] light IH]; intros st Hno.
  - cbn. rewrite !app_nil_r. now destruct st.
  - cbn [existsb] in Hno. apply orb_false_elim in Hno as [Hhere Hrest].
    cbn [for_in flat_map].
    erewrite bind_normal by (rewrite light_role_run, Hhere; reflexivity).
    rewrite (IH _ Hrest). project_state.
    unfold role_diagnostics at 2. cbn [fst snd].
    rewrite <- !app_assoc. reflexivity.
Qed.

Lemma dark_loop_run (dark : scheme) (st : state) :
  existsb stops_at dark = false ->
  for_in dark dark_role st
  = (Normal tt,
     mkState
       (cssRawVarsOutput st ++ flat_map (root_lines "    ") dark)
       (themeRegistrationOutput st)
       (stderr st ++ flat_map role_diagnostics dark))%list.
Proof.
  revert st. induction dark as [|[role colorHex] dark IH]; intros st Hno.
  - cbn. rewrite !app_nil_r. now destruct st.
  - cbn [existsb] in Hno. apply orb_false_elim in Hno as [Hhere Hrest].
    cbn [for_in flat_map].
    erewrite bind_normal by (rewrite dark_role_run, Hhere; reflexivity).
    rewrite (IH _ Hrest). project_state.
    unfold role_diagnostics at 2. cbn [fst snd].
    rewrite <- !app_assoc. reflexivity.
Qed.

(** The two outer loops, when an entry stops them. *)
Lemma light_loop_stops (light : scheme) (st : state) :
  existsb stops_at light = true ->
  exists e st', for_in light light_role st = (Abrupt e, st').
Proof.
  revert st. induction light as [|[role colorHex] light IH]; intros st Hyes.
  - discriminate Hyes.
  - cbn [existsb] in Hyes. cbn [for_in].
    destruct (stops_at (role, colorHex)) eqn:Hhere.
    + do 2 eexists. apply bind_abrupt.
      rewrite light_role_run, Hhere. reflexivity.
    + cbn [orb] in Hyes.
      erewrite bind_normal by (rewrite light_role_run, Hhere; reflexivity).
      apply IH, Hyes.
Qed.

Lemma dark_loop_stops (dark : scheme) (st : state) :
  existsb stops_at dark = true ->
  exists e st', for_in dark dark_role st = (Abrupt e, st').
Proof.
  revert st. induction dark as [|[role colorHex] dark IH]; intros st Hyes.
  - discriminate Hyes.
  - cbn [existsb] in Hyes. cbn [for_in].
    destruct (stops_at (role, colorHex)) eqn:Hhere.
    + do 2 eexists. apply bind_abrupt.
      rewrite dark_role_run, Hhere. reflexivity.
    + cbn [orb] in Hyes.
      erewrite bind_normal by (rewrite dark_role_run, Hhere; reflexivity).
      apply IH, Hyes.
Qed.

(** The whole action when no entry stops it: the two buffers, the
    diagnostics and the text. *)
Lemma action_run (light dark : scheme) :
  existsb stops_at (light ++ dark) = false ->
  let css := (root_opening ++ flat_map (root_lines "  ") light
                ++ dark_opening ++ flat_map (root_lines "    ") dark
                ++ dark_closing)%list in
  let theme := ("@theme {" :: flat_map registration_lines light ++ ["}"])%list in
  action light dark
  = (Normal (join nl (css ++ registration_heading ++ theme)%list),
     mkState css theme
       (flat_map role_diagnostics light ++ flat_map role_diagnostics dark)%list).
Proof.
  intros Hno. rewrite existsb_app in Hno.
  apply orb_false_elim in Hno as [Hlight Hdark]. cbv zeta.
  assert (Hbuild :
    build light dark initial_state
    = (Normal
         ((root_opening ++ flat_map (root_lines "  ") light
             ++ dark_opening ++ flat_map (root_lines "    ") dark
             ++ dark_closing)
            ++ registration_heading
            ++ "@theme {" :: flat_map registration_lines light ++ ["}"]),
       mkState
         (root_opening ++ flat_map (root_lines "  ") light
            ++ dark_opening ++ flat_map (root_lines "    ") dark
            ++ dark_closing)
         ("@theme {" :: flat_map registration_lines light ++ ["}"])
         (flat_map role_diagnostics light
            ++ flat_map role_diagnostics dark))%list).
  { unfold build, initial_state.
    do 4 push_step.
    erewrite bind_normal by (apply light_loop_run; exact Hlight).
    project_state.
    do 3 push_step.
    erewrite bind_normal by (apply dark_loop_run; exact Hdark).
    project_state.
    do 3 push_step.
    unfold root_opening, dark_opening, dark_closing, registration_heading.
    cbv beta. project_state.
    repeat (progress (cbn [app]; rewrite <- ?app_assoc)). reflexivity. }
  unfold action. rewrite Hbuild. reflexivity.
Qed.

(** The whole action when an entry stops it. *)
Lemma action_stops (light dark : scheme) :
  existsb stops_at (light ++ dark) = true ->
  exists e st, action light dark = (Abrupt e, st).
Proof.
  intros Hyes. rewrite existsb_app in Hyes.
  unfold action, build, initial_state. do 4 push_step.
  destruct (existsb stops_at light) eqn:Hlight.
  - destruct (light_loop_stops light
                (mkState root_opening ["@theme {"%string] []) Hlight)
      as (e & st' & Hstop).
    unfold root_opening in Hstop.
    erewrite bind_abrupt by exact Hstop. eauto.
  - cbn [orb] in Hyes.
    erewrite bind_normal by (apply light_loop_run; exact Hlight).
    project_state. do 3 push_step.
    match goal with
    | |- context [bind (for_in dark dark_role) ?k ?st0] =>
        destruct (dark_loop_stops dark st0 Hyes) as (e & st' & Hstop)
    end.
    erewrite bind_abrupt by exact Hstop. eauto.
Qed.

(** An action that reached its end met no entry that stops it. *)
Lemma action_completed (light dark : scheme) (content : string) :
  fst (action light dark) = Normal content ->
  existsb stops_at (light ++ dark) = false.
Proof.
  intros H. destruct (existsb stops_at (light ++ dark)) eqn:Hstop;
    [|reflexivity].
  destruct (action_stops light dark Hstop) as (e & st & Hact).
  rewrite Hact in H. discriminate H.
Qed.

(* ------------------------------------------------------------------ *)
(** ** The palette                                                     *)
(* ------------------------------------------------------------------ *)

Local Open Scope list_scope.

(** C1.  When the library accepts the base colour string (both of its
    calls return), the palette is returned and its shade 100 is that
    very string. *)
Theorem shade_100_is_base (c : string) (lighter darker : list string)
    (st : state) :
  scale_colors (VString "#FFFFFF") (VString c) "lch" None 3
  = Returns lighter ->
  scale_colors (VString c) (VString "#09090b") "lch"
    (Some (1 # 10, 1 # 4)%Q) 10 = Returns darker ->
  exists palette,
    createTonalPaletteFrom100 (VString c) st = (Normal (Some palette), st)
    /\ obj_get 100 palette = VString c.
Proof.
  intros H1 H2. eexists. split.
  - apply createTonalPaletteFrom100_returns.
    exact (try_palette_returns (VString c) lighter darker H1 H2).
  - reflexivity.
Qed.

(** C3, as amended.  For a base colour, of any form the library takes,
    on which the library returns its 3 and its 10 HEX samples, the
    palette has exactly the eleven shades as property names: 50 bound to
    the middle one of the 3 samples of the white-to-base scale, 100 to
    the base as it was given, and 200 to 950, in this order, to the 9
    samples left of the 10 of the padded base-to-#09090b scale once the
    first is dropped.  Every shade but 100 is bound to a HEX string;
    shade 100 is one when the base was given as a HEX string. *)
Theorem palette_of_samples (base : value) (lighter darker : list string)
    (st : state) :
  scale_colors (VString "#FFFFFF") base "lch" None 3 = Returns lighter ->
  scale_colors base (VString "#09090b") "lch"
    (Some (1 # 10, 1 # 4)%Q) 10 = Returns darker ->
  length lighter = 3%nat -> Forall (fun s => is_hex_color s = true) lighter ->
  length darker = 10%nat -> Forall (fun s => is_hex_color s = true) darker ->
  exists palette,
    createTonalPaletteFrom100 base st = (Normal (Some palette), st)
    /\ obj_keys palette
       = [50; 100; 200; 300; 400; 500; 600; 700; 800; 900; 950]%N
    /\ (exists middle, nth_error lighter 1 = Some middle
                       /\ obj_get 50 palette = VString middle)
    /\ obj_get 100 palette = base
    /\ shade_values palette [200; 300; 400; 500; 600; 700; 800; 900; 950]%N
       = map VString (array_slice1 darker)
    /\ Forall (fun entry =>
                 fst entry <> 100%N ->
                 exists s, snd entry = VString s /\ is_hex_color s = true)
         palette
    /\ (forall c, base = VString c -> is_hex_color c = true ->
          Forall (fun entry => exists s, snd entry = VString s
                                         /\ is_hex_color s = true) palette).
Proof.
  intros H1 H2 L3 F3 L10 F10.
  destruct lighter as [|l0 [|l1 [|l2 [|? ?]]]]; try discriminate L3.
  destruct darker as [|d0 [|d1 [|d2 [|d3 [|d4 [|d5 [|d6 [|d7 [|d8 [|d9 [|? ?]]]]]]]]]]];
    try discriminate L10.
  inversion_clear F3 as [|? ? _ F3']. inversion_clear F3' as [|? ? Hl1 _].
  repeat match goal with
         | F : Forall _ (_ :: _) |- _ => inversion_clear F
         end.
  eexists. split; [|split; [|split; [|split; [|split; [|split]]]]].
  - apply createTonalPaletteFrom100_returns.
    exact (try_palette_returns _ _ _ H1 H2).
  - reflexivity.
  - exists l1. split; reflexivity.
  - reflexivity.
  - reflexivity.
  - unfold array_get. cbn [map nth].
    repeat (constructor;
            [cbn [fst snd]; intros Hne; try (now contradiction Hne); eauto|]).
    constructor.
  - intros c -> Hc. unfold array_get. cbn [map nth].
    repeat (constructor; [cbn [snd]; eauto|]). constructor.
Qed.

(* ------------------------------------------------------------------ *)
(** ** The style sheet                                                 *)
(* ------------------------------------------------------------------ *)

(** C7.  The [catch] block of the generator is meant to write the
    diagnostic and return [null], but it builds its message from the
    base colour first.  For a base colour that cannot be converted to a
    string, an object with a property named [toString], the library
    throws, the message throws in its turn, and the exception leaves the
    generator: nothing is written to the diagnostic output, no [null]
    is returned, and the action stops there, without the roles that
    follow and without the dark scheme. *)
Theorem failed_palette_may_stop_the_action :
  let base := VObject [("toString"%string, VNumber 1)] in
  @interpolation_throws grey_library base "unknown format"%string
  /\ @createTonalPaletteFrom100 grey_library base initial_state
     = (Abrupt (TypeError base), initial_state)
  /\ @action grey_library
       [("primary"%string, base); ("secondary"%string, VString "#625B71")]
       [("primary"%string, VString "#D0BCFF")]
     = (Abrupt (TypeError base),
        mkState
          (root_opening
             ++ [css_comment "  " "primary"; css_base "  " "primary" "0, 0, 0"])
          ["@theme {"%string; theme_comment "primary"; theme_base "primary"]
          [])
  /\ @run grey_library unit
       (Returns (VObject [("light"%string,
                           VObject [("primary"%string, base)])]))
     = ExitsWithFailure [].
Proof. cbv zeta. repeat split. now left. Qed.

(** X15.  The generator and its callers when the message of the [catch]
    block can be built, as it can for every string, number and boolean and
    for [null]: the generator returns [null] after writing the
    diagnostic; the role gets its comment and its base declaration and
    nothing else, in either loop; and an action that reaches its end has
    the lines of the roles around it and of the other scheme. *)
Theorem failed_palette_is_skipped (role : string) (base : value)
    (error : chroma_error) :
  includes KEYS_TO_SKIP role = false ->
  interpolation_throws base error ->
  throws_on_ToString base = false ->
  let roleKebab := toKebabCase role in
  let rgb := hexToRgbValues base in
  (forall st,
     createTonalPaletteFrom100 base st
     = (Normal None,
        mkState (cssRawVarsOutput st) (themeRegistrationOutput st)
          (stderr st ++ [ErrorGeneratingPalette base error])))
  /\ (forall st,
        light_role role base st
        = (Normal tt,
           mkState
             (cssRawVarsOutput st
                ++ [css_comment "  " roleKebab; css_base "  " roleKebab rgb])
             (themeRegistrationOutput st
                ++ [theme_comment roleKebab; theme_base roleKebab])
             (stderr st ++ [ErrorGeneratingPalette base error])))
  /\ (forall st,
        dark_role role base st
        = (Normal tt,
           mkState
             (cssRawVarsOutput st
                ++ [css_comment "    " roleKebab;
                    css_base "    " roleKebab rgb])
             (themeRegistrationOutput st)
             (stderr st ++ [ErrorGeneratingPalette base error])))
  /\ (forall before after dark content,
        fst (action (before ++ (role, base) :: after) dark)
        = Normal content ->
        let st := snd (action (before ++ (role, base) :: after) dark) in
        cssRawVarsOutput st
        = root_opening ++ flat_map (root_lines "  ") before
            ++ [css_comment "  " roleKebab; css_base "  " roleKebab rgb]
            ++ flat_map (root_lines "  ") after
            ++ dark_opening ++ flat_map (root_lines "    ") dark
            ++ dark_closing
        /\ themeRegistrationOutput st
           = "@theme {" :: flat_map registration_lines before
               ++ [theme_comment roleKebab; theme_base roleKebab]
               ++ flat_map registration_lines after ++ ["}"])
  /\ (forall light before after content,
        fst (action light (before ++ (role, base) :: after))
        = Normal content ->
        let st := snd (action light (before ++ (role, base) :: after)) in
        cssRawVarsOutput st
        = root_opening ++ flat_map (root_lines "  ") light
            ++ dark_opening ++ flat_map (root_lines "    ") before
            ++ [css_comment "    " roleKebab; css_base "    " roleKebab rgb]
            ++ flat_map (root_lines "    ") after
            ++ dark_closing).
Proof.
  intros Hskip Hthrow Hts. cbv zeta.
  pose proof (try_palette_throws base error Hthrow) as Htry.
  assert (Hroot : forall indent,
            root_lines indent (role, base)
            = [css_comment indent (toKebabCase role);
               css_base indent (toKebabCase role) (hexToRgbValues base)]).
  { intros indent. unfold root_lines, shade_entries.
    rewrite Hskip, Htry. reflexivity. }
  assert (Hreg : registration_lines (role, base)
                 = [theme_comment (toKebabCase role);
                    theme_base (toKebabCase role)]).
  { unfold registration_lines, shade_entries. rewrite Hskip, Htry. reflexivity. }
  assert (Hdiag : diagnostics role base = [ErrorGeneratingPalette base error]).
  { unfold diagnostics. rewrite Hskip, Htry, Hts. reflexivity. }
  assert (Hgo : stops_at (role, base) = false).
  { unfold stops_at. cbn [fst snd]. rewrite Htry, Hts. apply andb_false_r. }
  split; [|split; [|split; [|split]]].
  - intros st. now apply createTonalPaletteFrom100_throws.
  - intros st. rewrite light_role_run, Hgo, Hroot, Hreg, Hdiag. reflexivity.
  - intros st. rewrite dark_role_run, Hgo, Hroot, Hdiag. reflexivity.
  - intros before after dark content Hdone.
    pose proof (action_run _ _ (action_completed _ _ _ Hdone)) as Hrun.
    cbv zeta in Hrun. rewrite Hrun.
    cbn [snd cssRawVarsOutput themeRegistrationOutput].
    rewrite !flat_map_app. cbn [flat_map]. rewrite Hroot, Hreg.
    split.
    + rewrite <- !app_assoc. reflexivity.
    + cbn [app]. rewrite <- !app_assoc. reflexivity.
  - intros light before after content Hdone.
    pose proof (action_run _ _ (action_completed _ _ _ Hdone)) as Hrun.
    cbv zeta in Hrun. rewrite Hrun. cbn [snd cssRawVarsOutput].
    rewrite !flat_map_app. cbn [flat_map]. rewrite Hroot.
    rewrite <- !app_assoc. reflexivity.
Qed.

Lemma skip_list_includes (role : string) :
  In role ["background"; "surface"; "surfaceTint"; "shadow"; "scrim";
           "outline"; "outlineVariant"; "surfaceDim"; "surfaceBright"]%string ->
  includes KEYS_TO_SKIP role = true.
Proof.
  intros H. repeat (destruct H as [<- | H]; [reflexivity|]). destruct H.
Qed.

(** C8.  A role named by one of the nine entries of the skip list
    contributes its comment and its base declaration and no shade
    declaration: to the [:root] block and to the [@theme] block in the
    loop over the light scheme, to the dark block in the loop over the
    dark scheme.  The palette generator is not even called. *)
Theorem skipped_role_has_no_shades (role : string) (colorHex : value)
    (st : state) :
  In role ["background"; "surface"; "surfaceTint"; "shadow"; "scrim";
           "outline"; "outlineVariant"; "surfaceDim"; "surfaceBright"]%string ->
  let roleKebab := toKebabCase role in
  let rgb := hexToRgbValues colorHex in
  light_role role colorHex st
  = (Normal tt,
     mkState
       (cssRawVarsOutput st
          ++ [css_comment "  " roleKebab; css_base "  " roleKebab rgb])
       (themeRegistrationOutput st
          ++ [theme_comment roleKebab; theme_base roleKebab])
       (stderr st))
  /\ dark_role role colorHex st
     = (Normal tt,
        mkState
          (cssRawVarsOutput st
             ++ [css_comment "    " roleKebab;
                 css_base "    " roleKebab rgb])
          (themeRegistrationOutput st)
          (stderr st)).
Proof.
  intros Hin. apply skip_list_includes in Hin. cbv zeta.
  rewrite light_role_run, dark_role_run.
  unfold root_lines, registration_lines, shade_entries, diagnostics, stops_at.
  cbn [fst snd]. rewrite Hin. cbn [negb andb map]. rewrite !app_nil_r.
  split; reflexivity.
Qed.

(** C9.  In an action that reaches its end, the [@theme] block holds,
    between its two braces, the registrations of the roles of the light
    scheme and of their palette shades, and nothing else: it is the
    same whatever the dark scheme.  The shade declarations of the dark
    scheme are written, in the dark block of the raw variables.  (An
    action that stops on the way writes no block at all.) *)
Theorem theme_registers_light_scheme_only (light dark : scheme)
    (content : string) :
  fst (action light dark) = Normal content ->
  let st := snd (action light dark) in
  themeRegistrationOutput st
  = "@theme {"%string :: flat_map registration_lines light ++ ["}"%string]
  /\ (forall dark' content',
        fst (action light dark') = Normal content' ->
        themeRegistrationOutput (snd (action light dark'))
        = themeRegistrationOutput st)
  /\ cssRawVarsOutput st
     = root_opening ++ flat_map (root_lines "  ") light
         ++ dark_opening ++ flat_map (root_lines "    ") dark
         ++ dark_closing
  /\ content
     = join nl (cssRawVarsOutput st ++ registration_heading
                  ++ themeRegistrationOutput st).
Proof.
  intros Hdone. cbv zeta.
  pose proof (action_run _ _ (action_completed _ _ _ Hdone)) as Hrun.
  cbv zeta in Hrun. rewrite Hrun in Hdone |- *.
  cbn [fst snd cssRawVarsOutput themeRegistrationOutput] in Hdone |- *.
  injection Hdone as <-.
  repeat split.
  intros dark' content' Hdone'.
  pose proof (action_run _ _ (action_completed _ _ _ Hdone')) as Hrun'.
  cbv zeta in Hrun'. rewrite Hrun'. reflexivity.
Qed.

(** C10.  For a role that is not on the skip list and whose palette was
    generated, the property names of the palette are the eleven shades
    in ascending order, and the shade declarations follow the base
    declaration in that order, 50, 100, 200, ..., 950: in the [:root]
    block and in the [@theme] block for the light scheme, in the dark
    block for the dark scheme. *)
Theorem shades_are_emitted_ascending (role : string) (colorHex : value)
    (palette : object) (st0 : state) :
  includes KEYS_TO_SKIP role = false ->
  fst (createTonalPaletteFrom100 colorHex st0) = Normal (Some palette) ->
  let roleKebab := toKebabCase role in
  let rgb := hexToRgbValues colorHex in
  let ascending :=
    [50; 100; 200; 300; 400; 500; 600; 700; 800; 900; 950]%N in
  obj_keys palette = ascending
  /\ StronglySorted N.lt (obj_keys palette)
  /\ (forall st,
        light_role role colorHex st
        = (Normal tt,
           mkState
             (cssRawVarsOutput st
                ++ css_comment "  " roleKebab
                :: css_base "  " roleKebab rgb
                :: map (fun shade =>
                          css_shade "  " roleKebab shade
                            (obj_get shade palette)) ascending)
             (themeRegistrationOutput st
                ++ theme_comment roleKebab
                :: theme_base roleKebab
                :: map (theme_shade roleKebab) ascending)
             (stderr st)))
  /\ (forall st,
        dark_role role colorHex st
        = (Normal tt,
           mkState
             (cssRawVarsOutput st
                ++ css_comment "    " roleKebab
                :: css_base "    " roleKebab rgb
                :: map (fun shade =>
                          css_shade "    " roleKebab shade
                            (obj_get shade palette)) ascending)
             (themeRegistrationOutput st)
             (stderr st))).
Proof.
  intros Hskip Hsome. cbv zeta.
  apply createTonalPaletteFrom100_some in Hsome.
  assert (Hgo : stops_at (role, colorHex) = false).
  { unfold stops_at. cbn [fst snd]. rewrite Hsome. apply andb_false_r. }
  destruct (try_palette_inv colorHex palette Hsome) as (l & d & H1 & H2).
  pose proof (try_palette_returns colorHex l d H1 H2) as Hshape.
  rewrite Hsome in Hshape. injection Hshape as ->.
  split; [reflexivity|]. split.
  { cbn [obj_keys map fst].
    repeat (constructor; [|repeat constructor; reflexivity]). constructor. }
  split; intros st.
  - rewrite light_role_run, Hgo.
    unfold root_lines, registration_lines, shade_entries, diagnostics.
    rewrite Hskip, Hsome. rewrite app_nil_r. reflexivity.
  - rewrite dark_role_run, Hgo.
    unfold root_lines, shade_entries, diagnostics.
    rewrite Hskip, Hsome. rewrite app_nil_r. reflexivity.
Qed.

End Properties.

(* ------------------------------------------------------------------ *)
(** ** Concrete runs                                                   *)
(* ------------------------------------------------------------------ *)

(** The two role names of the specification. *)
Example toKebabCase_examples :
  toKebabCase "primaryContainer" = "primary-container"
  /\ toKebabCase "primary" = "primary".
Proof. split; reflexivity. Qed.

(** The theme of the README: the base declarations of both roles, no
    shade for [surface], and shade 100 of [primary] equal to its base. *)
Example readme_theme :
  let st :=
    snd (@action grey_library
           [("primary", VString "#6750A4"); ("surface", VString "#FFFBFE")]
           [("primary", VString "#D0BCFF"); ("surface", VString "#1C1B1F")]) in
  firstn 4 (skipn 4 (cssRawVarsOutput st))
  = [nl ++ "  /* --- primary --- */";
     "  --md-sys-color-primary: 103, 80, 164; /* Locked Color */";
     "  --md-sys-color-primary-50: 17, 17, 17;";
     "  --md-sys-color-primary-100: 103, 80, 164;"]
  /\ firstn 3 (skipn 17 (cssRawVarsOutput st))
     = [nl ++ "  /* --- surface --- */";
        "  --md-sys-color-surface: 255, 251, 254; /* Locked Color */";
        "}" ++ nl]
  /\ length (stderr st) = 0%nat.
Proof. cbv zeta. repeat split; vm_compute; reflexivity. Qed.

Lemma shade_100_is_base_witness :
  exists palette,
    @createTonalPaletteFrom100 grey_library (VString "#6750A4") initial_state
    = (Normal (Some palette), initial_state)
    /\ obj_get 100 palette = VString "#6750A4".
Proof.
  apply (@shade_100_is_base grey_library "#6750A4"
           (map grey (seq 0 3)) (map grey (seq 0 10)) initial_state);
    reflexivity.
Defined.

(** C3 as it was stated fails on a base colour that the library takes
    and that is not written as a HEX string, a colour name for one: the
    library returns its HEX samples, the palette is generated, and its
    shade 100 is the name itself, which is no HEX string. *)
Lemma named_base_is_not_hex :
  exists lighter darker palette,
    @scale_colors lenient_library (VString "#FFFFFF") (VString "red")
      "lch" None 3 = Returns lighter
    /\ @scale_colors lenient_library (VString "red") (VString "#09090b")
         "lch" (Some (1 # 10, 1 # 4)%Q) 10 = Returns darker
    /\ length lighter = 3%nat
    /\ Forall (fun s => is_hex_color s = true) lighter
    /\ length darker = 10%nat
    /\ Forall (fun s => is_hex_color s = true) darker
    /\ @createTonalPaletteFrom100 lenient_library (VString "red")
         initial_state
       = (Normal (Some palette), initial_state)
    /\ obj_get 100 palette = VString "red"
    /\ ~ (exists s, obj_get 100 palette = VString s
                    /\ is_hex_color s = true).
Proof.
  exists (map grey (seq 0 3)), (map grey (seq 0 10)). eexists.
  repeat split; try reflexivity; try (repeat constructor).
  intros (s & Hs & Hhex). cbn in Hs. injection Hs as <-. discriminate Hhex.
Qed.

Lemma palette_of_samples_witness :
  exists palette,
    @createTonalPaletteFrom100 lenient_library (VNumber 255) initial_state
    = (Normal (Some palette), initial_state)
    /\ obj_keys palette
       = [50; 100; 200; 300; 400; 500; 600; 700; 800; 900; 950]%N
    /\ (exists middle, nth_error (map grey (seq 0 3)) 1 = Some middle
                       /\ obj_get 50 palette = VString middle)
    /\ obj_get 100 palette = VNumber 255
    /\ shade_values palette [200; 300; 400; 500; 600; 700; 800; 900; 950]%N
       = map VString (array_slice1 (map grey (seq 0 10)))
    /\ Forall (fun entry =>
                 fst entry <> 100%N ->
                 exists s, snd entry = VString s /\ is_hex_color s = true)
         palette
    /\ (forall c, VNumber 255 = VString c -> is_hex_color c = true ->
          Forall (fun entry => exists s, snd entry = VString s
                                         /\ is_hex_color s = true) palette).
Proof.
  apply (@palette_of_samples lenient_library (VNumber 255)
           (map grey (seq 0 3)) (map grey (seq 0 10)) initial_state);
    try reflexivity; repeat constructor.
Defined.

Lemma failed_palette_is_skipped_witness :
  @light_role grey_library "primary" (VString "zz") initial_state
  = (Normal tt,
     mkState
       ["
  /* --- primary --- */";
        "  --md-sys-color-primary: 0, 0, 0; /* Locked Color */"]
       ["@theme {";
        "
  /* primary */";
        "  --color-primary: var(--md-sys-color-primary); /* Locked Color */"]
       [@ErrorGeneratingPalette grey_library (VString "zz")
          "unknown hex color"]).
Proof.
  pose proof (@failed_palette_is_skipped grey_library "primary" (VString "zz")
                "unknown hex color" eq_refl (or_introl eq_refl) eq_refl) as H.
  cbv zeta in H. destruct H as (_ & Hlight & _).
  exact (Hlight initial_state).
Defined.

Lemma skipped_role_has_no_shades_witness :
  @dark_role grey_library "surface" (VString "#1C1B1F") initial_state
  = (Normal tt,
     mkState
       ["
    /* --- surface --- */";
        "    --md-sys-color-surface: 28, 27, 31; /* Locked Color */"]
       ["@theme {"] []).
Proof.
  assert (Hin : In "surface"
                  ["background"; "surface"; "surfaceTint"; "shadow"; "scrim";
                   "outline"; "outlineVariant"; "surfaceDim"; "surfaceBright"]).
  { simpl. tauto. }
  pose proof (@skipped_role_has_no_shades grey_library "surface"
                (VString "#1C1B1F") initial_state Hin) as H.
  cbv zeta in H. destruct H as [_ Hdark]. exact Hdark.
Defined.

Lemma theme_registers_light_scheme_only_witness :
  themeRegistrationOutput
    (snd (@action grey_library
            [("primary", VString "#6750A4"); ("surface", VString "#FFFBFE")]
            [("primary", VString "#D0BCFF"); ("surface", VString "#1C1B1F")]))
  = "@theme {"
      :: @flat_map _ _ (@registration_lines grey_library)
           [("primary", VString "#6750A4"); ("surface", VString "#FFFBFE")]
      ++ ["}"].
Proof.
  refine (proj1 (@theme_registers_light_scheme_only grey_library
                   [("primary", VString "#6750A4");
                    ("surface", VString "#FFFBFE")]
                   [("primary", VString "#D0BCFF");
                    ("surface", VString "#1C1B1F")]
                   match fst (@action grey_library
                                [("primary", VString "#6750A4");
                                 ("surface", VString "#FFFBFE")]
                                [("primary", VString "#D0BCFF");
                                 ("surface", VString "#1C1B1F")]) with
                   | Normal content => content
                   | Abrupt _ => ""
                   end _)).
  vm_compute. reflexivity.
Defined.

Lemma shades_are_emitted_ascending_witness :
  exists palette,
    fst (@createTonalPaletteFrom100 grey_library (VString "#D0BCFF")
           initial_state) = Normal (Some palette)
    /\ obj_keys palette
       = [50; 100; 200; 300; 400; 500; 600; 700; 800; 900; 950]%N.
Proof.
  eexists. split; [reflexivity|].
  exact (proj1 (@shades_are_emitted_ascending grey_library "primary"
                  (VString "#D0BCFF") _ initial_state eq_refl eq_refl)).
Defined.

(* ------------------------------------------------------------------ *)
(** ** Further properties of hexToRgbValues                            *)
(* ------------------------------------------------------------------ *)

Lemma in_all_ascii (c : ascii) : In c all_ascii.
Proof.
  unfold all_ascii. rewrite <- (ascii_nat_embedding c).
  apply in_map, in_seq. pose proof (nat_ascii_bounded c). lia.
Qed.

Lemma for_all_pairs_spec (p : ascii -> ascii -> bool) :
  for_all_pairs p = true -> forall a b, p a b = true.
Proof.
  unfold for_all_pairs. intros H a b.
  rewrite forallb_forall in H. specialize (H a (in_all_ascii a)).
  rewrite forallb_forall in H. exact (H b (in_all_ascii b)).
Qed.

(** Whatever the two code units, [parseInt] gives [NaN] or an integer
    from -15 to 255. *)
Lemma parseInt16_pair_component (a b : ascii) :
  is_component (parseInt16 (String a (String b ""))) = true.
Proof.
  revert a b. apply for_all_pairs_spec. vm_compute. reflexivity.
Qed.

(** Letter case is invisible to [parseInt] on two code units. *)
Lemma parseInt16_pair_lower (a b : ascii) :
  parseInt16 (String (lower_char a) (String (lower_char b) ""))
  = parseInt16 (String a (String b "")).
Proof.
  assert (H : forall a b,
            match parseInt16 (String (lower_char a) (String (lower_char b) "")),
                  parseInt16 (String a (String b "")) with
            | Some x, Some y => Z.eqb x y
            | None, None => true
            | _, _ => false
            end = true).
  { apply for_all_pairs_spec. vm_compute. reflexivity. }
  specialize (H a b).
  destruct (parseInt16 (String (lower_char a) (String (lower_char b) "")))
    as [x|],
    (parseInt16 (String a (String b ""))) as [y|];
    try discriminate H; [|reflexivity].
  apply Z.eqb_eq in H. now subst.
Qed.

Lemma toLowerCase_length (s : string) :
  String.length (toLowerCase s) = String.length s.
Proof. induction s as [|c s IH]; cbn; [reflexivity | now rewrite IH]. Qed.

Lemma lower_char_hash (c : ascii) :
  (c =? "#")%char = (lower_char c =? "#")%char.
Proof. destruct c as [[] [] [] [] [] [] [] []]; reflexivity. Qed.

Lemma startsWith_hash_eqb (c : ascii) (rest : string) :
  startsWith (String c rest) "#" = (c =? "#")%char.
Proof.
  unfold startsWith. cbn [String.prefix].
  destruct (ascii_dec "#" c) as [<-|Hne].
  - now destruct rest.
  - symmetry. apply Ascii.eqb_neq. congruence.
Qed.

Lemma double_chars_toLowerCase (s : string) :
  double_chars (toLowerCase s) = toLowerCase (double_chars s).
Proof. induction s as [|c s IH]; cbn; [reflexivity | now rewrite IH]. Qed.

(** The conversion once the [#] is gone: doubling, the test of the
    length and the three components. *)
Lemma hexToRgbValues_clean (first : ascii) (rest : string) :
  hexToRgbValues (VString (String first rest))
  = let cleanHex := if (first =? "#")%char then rest else String first rest in
    let cleanHex :=
      if (String.length cleanHex =? 3)%nat then double_chars cleanHex
      else cleanHex in
    if negb (String.length cleanHex =? 6)%nat then "0, 0, 0" else
    number_to_string (parseInt16 (substring 0 2 cleanHex)) ++ ", "
      ++ number_to_string (parseInt16 (substring 2 4 cleanHex)) ++ ", "
      ++ number_to_string (parseInt16 (substring 4 6 cleanHex)).
Proof.
  unfold hexToRgbValues. cbn [String.length Nat.eqb].
  rewrite startsWith_hash_eqb. cbn [slice1]. reflexivity.
Qed.

Lemma hexToRgbValues_fallback_witness :
  hexToRgbValues (VString "#1234") = "0, 0, 0"
  /\ hexToRgbValues (VNumber (1 # 2)) = "0, 0, 0".
Proof.
  split; apply hexToRgbValues_fallback.
  - intros s [= <-]. right. cbn. split; discriminate.
  - intros s H. discriminate H.
Defined.

(** X2.  Exactly one leading [#] is dropped: a string that does not
    start with [#] converts the same with a [#] put before it. *)
Theorem hexToRgbValues_one_hash (s : string) :
  startsWith s "#" = false ->
  hexToRgbValues (VString (String "#" s)) = hexToRgbValues (VString s).
Proof.
  intros H. destruct s as [|c rest]; [reflexivity|].
  rewrite startsWith_hash_eqb in H.
  rewrite !hexToRgbValues_clean. rewrite H. reflexivity.
Qed.

Lemma hexToRgbValues_one_hash_witness :
  hexToRgbValues (VString "#D0BCFF") = hexToRgbValues (VString "D0BCFF")
  /\ hexToRgbValues (VString "##D0BCFF") <> hexToRgbValues (VString "#D0BCFF").
Proof.
  split.
  - apply (hexToRgbValues_one_hash "D0BCFF"). reflexivity.
  - discriminate.
Defined.

(** X3.  Letter case never matters: a string and its lower-case form
    convert to the same text, digits or not. *)
Theorem hexToRgbValues_ignores_case (s : string) :
  hexToRgbValues (VString (toLowerCase s)) = hexToRgbValues (VString s).
Proof.
  destruct s as [|first rest]; [reflexivity|].
  cbn [toLowerCase]. rewrite !hexToRgbValues_clean.
  rewrite <- lower_char_hash.
  change (String (lower_char first) (toLowerCase rest))
    with (toLowerCase (String first rest)).
  set (clean := if (first =? "#")%char then rest else String first rest).
  replace (if (first =? "#")%char then toLowerCase rest
           else toLowerCase (String first rest))
    with (toLowerCase clean) by (subst clean; now destruct (first =? "#")%char).
  cbv zeta. rewrite toLowerCase_length.
  set (six := if (String.length clean =? 3)%nat then double_chars clean
              else clean).
  replace (if (String.length clean =? 3)%nat
           then double_chars (toLowerCase clean) else toLowerCase clean)
    with (toLowerCase six)
    by (subst six; rewrite double_chars_toLowerCase;
        now destruct (String.length clean =? 3)%nat).
  rewrite toLowerCase_length.
  destruct (Nat.eqb_spec (String.length six) 6) as [Hlen|_]; [|reflexivity].
  destruct six as [|c1 [|c2 [|c3 [|c4 [|c5 [|c6 [|c7 six]]]]]]];
    try discriminate Hlen.
  cbn [negb toLowerCase substring Nat.sub String.substring].
  now rewrite !parseInt16_pair_lower.
Qed.

(** X4.  The text always has three components separated by a comma and
    a space, each [NaN] or an integer from -15 to 255: no component is
    ever above 255. *)
Theorem hexToRgbValues_components (hex : value) :
  exists r g b : number,
    hexToRgbValues hex
    = number_to_string r ++ ", " ++ number_to_string g ++ ", "
        ++ number_to_string b
    /\ is_component r = true /\ is_component g = true
    /\ is_component b = true.
Proof.
  assert (Hblack :
    exists r g b : number,
      "0, 0, 0" = number_to_string r ++ ", " ++ number_to_string g ++ ", "
                    ++ number_to_string b
      /\ is_component r = true /\ is_component g = true
      /\ is_component b = true).
  { exists (Some 0), (Some 0), (Some 0). repeat split. }
  destruct hex as [| | | |s| |]; try exact Hblack.
  destruct s as [|first rest]; [exact Hblack|].
  rewrite hexToRgbValues_clean. cbv zeta.
  set (six := if (String.length _ =? 3)%nat then _ else _).
  destruct (Nat.eqb_spec (String.length six) 6) as [Hlen|_]; [|exact Hblack].
  destruct six as [|c1 [|c2 [|c3 [|c4 [|c5 [|c6 [|c7 six]]]]]]];
    try discriminate Hlen.
  cbn [negb substring Nat.sub String.substring].
  do 3 eexists. split; [reflexivity|].
  repeat split; apply parseInt16_pair_component.
Qed.

(* ------------------------------------------------------------------ *)
(** ** Further properties of toKebabCase                               *)
(* ------------------------------------------------------------------ *)

Lemma lower_char_not_upper (c : ascii) : is_upper (lower_char c) = false.
Proof. destruct c as [[] [] [] [] [] [] [] []]; reflexivity. Qed.

Lemma lower_char_idempotent (c : ascii) :
  lower_char (lower_char c) = lower_char c.
Proof. destruct c as [[] [] [] [] [] [] [] []]; reflexivity. Qed.

Lemma lower_char_fixed_not_upper (c : ascii) :
  lower_char c = c -> is_upper c = false.
Proof. intros <-. apply lower_char_not_upper. Qed.

Lemma toLowerCase_no_upper (s : string) : no_upper (toLowerCase s) = true.
Proof.
  induction s as [|c s IH]; cbn; [reflexivity|].
  now rewrite lower_char_not_upper, IH.
Qed.

Lemma toLowerCase_idempotent (s : string) :
  toLowerCase (toLowerCase s) = toLowerCase s.
Proof.
  induction s as [|c s IH]; cbn; [reflexivity|].
  now rewrite lower_char_idempotent, IH.
Qed.

(** Without a letter A-Z there is no place for a hyphen. *)
Lemma hyphenate_no_upper (s : string) :
  no_upper s = true -> hyphenate s = s.
Proof.
  induction s as [|c1 s IH]; [reflexivity|].
  cbn [no_upper]. intros H. apply andb_prop in H as [_ Hs].
  specialize (IH Hs). cbn [hyphenate].
  destruct s as [|c2 s']; [reflexivity|].
  cbn [no_upper] in Hs. apply andb_prop in Hs as [H2 _].
  apply negb_true_iff in H2. rewrite H2, andb_false_r. now rewrite IH.
Qed.

(** X5.  The result never holds a letter A-Z, and lower-casing it
    changes nothing. *)
Theorem toKebabCase_is_lower_case (str : string) :
  no_upper (toKebabCase str) = true
  /\ toLowerCase (toKebabCase str) = toKebabCase str.
Proof.
  unfold toKebabCase. split.
  - apply toLowerCase_no_upper.
  - apply toLowerCase_idempotent.
Qed.

(** X6.  Converting twice is converting once: a name that is already in
    kebab case comes back unchanged. *)
Theorem toKebabCase_idempotent (str : string) :
  toKebabCase (toKebabCase str) = toKebabCase str.
Proof.
  unfold toKebabCase.
  rewrite (hyphenate_no_upper (toLowerCase (hyphenate str)))
    by apply toLowerCase_no_upper.
  apply toLowerCase_idempotent.
Qed.

(** X7.  A name that lower-casing leaves alone is returned as it is:
    no hyphen is put into, or taken from, a name without capitals. *)
Theorem toKebabCase_lower_case_unchanged (str : string) :
  toLowerCase str = str -> toKebabCase str = str.
Proof.
  intros H. unfold toKebabCase.
  rewrite hyphenate_no_upper; [exact H|].
  rewrite <- H. apply toLowerCase_no_upper.
Qed.

Lemma toKebabCase_lower_case_unchanged_witness :
  toKebabCase "on-primary-container" = "on-primary-container".
Proof. apply toKebabCase_lower_case_unchanged. reflexivity. Defined.

Lemma toLowerCase_app (a b : string) :
  toLowerCase (a ++ b) = toLowerCase a ++ toLowerCase b.
Proof. induction a as [|c a IH]; cbn; [reflexivity | now rewrite IH]. Qed.

Lemma hyphenate_app (a b : string) (c1 c2 : ascii) :
  hyphenate ((a ++ String c1 "") ++ String c2 b)
  = hyphenate (a ++ String c1 "")
      ++ (if is_lower_or_digit c1 && is_upper c2 then "-" else "")
      ++ hyphenate (String c2 b).
Proof.
  induction a as [|c0 a IH].
  - cbn [append hyphenate].
    destruct (is_lower_or_digit c1 && is_upper c2); reflexivity.
  - change ((String c0 a ++ String c1 "") ++ String c2 b)
      with (String c0 ((a ++ String c1 "") ++ String c2 b)).
    change (String c0 a ++ String c1 "")
      with (String c0 (a ++ String c1 "")).
    destruct a as [|d a'].
    + cbn [append] in *. cbn [hyphenate] in *.
      destruct (is_lower_or_digit c0 && is_upper c1);
        destruct (is_lower_or_digit c1 && is_upper c2); reflexivity.
    + assert (Hl : hyphenate (String c0 ((String d a' ++ String c1 "")
                                           ++ String c2 b))
                   = (if is_lower_or_digit c0 && is_upper d
                      then String c0 (String "-"
                             (hyphenate ((String d a' ++ String c1 "")
                                           ++ String c2 b)))
                      else String c0
                             (hyphenate ((String d a' ++ String c1 "")
                                           ++ String c2 b))))
        by reflexivity.
      assert (Hr : hyphenate (String c0 (String d a' ++ String c1 ""))
                   = (if is_lower_or_digit c0 && is_upper d
                      then String c0 (String "-"
                             (hyphenate (String d a' ++ String c1 "")))
                      else String c0
                             (hyphenate (String d a' ++ String c1 ""))))
        by reflexivity.
      rewrite Hl, Hr, IH.
      destruct (is_lower_or_digit c0 && is_upper d); reflexivity.
Qed.

(** X8.  For names whose code units are all below 256, where
    [toLowerCase] works code unit by code unit: where two parts of a
    name meet, a hyphen is put exactly when the first ends on a
    lower-case letter or a digit and the second starts with a letter
    A-Z; apart from that the parts convert on their own. *)
Theorem toKebabCase_app (a b : string) (c1 c2 : ascii) :
  toKebabCase ((a ++ String c1 "") ++ String c2 b)
  = toKebabCase (a ++ String c1 "")
      ++ (if is_lower_or_digit c1 && is_upper c2 then "-" else "")
      ++ toKebabCase (String c2 b).
Proof.
  unfold toKebabCase. rewrite hyphenate_app, !toLowerCase_app.
  destruct (is_lower_or_digit c1 && is_upper c2); reflexivity.
Qed.

(* ------------------------------------------------------------------ *)
(** ** Further properties of the action                                *)
(* ------------------------------------------------------------------ *)

Lemma flat_map_nil {A B} (f : A -> list B) (l : list A) :
  flat_map f l = [] <-> forall x, In x l -> f x = [].
Proof.
  induction l as [|a l IH]; cbn.
  - split; [intros _ x [] | reflexivity].
  - split.
    + intros H. apply app_eq_nil in H as [Ha Hl].
      intros x [<-|Hx]; [exact Ha | now apply IH].
    + intros H. rewrite (H a (or_introl eq_refl)).
      apply IH. intros x Hx. apply H. now right.
Qed.

Lemma get_scheme_none (schemes : value) (name : string) :
  get_scheme schemes name = None ->
  schemes = VNull \/ schemes = VUndefined.
Proof. destruct schemes; cbn; intros H; try discriminate H; auto. Qed.

Lemma get_scheme_some (schemes light : value) (name name' : string) :
  get_scheme schemes name = Some light ->
  exists dark, get_scheme schemes name' = Some dark.
Proof. destruct schemes; cbn; intros H; try discriminate H; eauto. Qed.

Section FurtherProperties.

Context {lib : Chroma}.

Local Open Scope list_scope.

(** What makes the action stop at an entry. *)
Lemma stops_at_iff (role : string) (colorHex : value) :
  stops_at (role, colorHex) = true
  <-> includes KEYS_TO_SKIP role = false
      /\ (exists error, try_palette colorHex = Throws error)
      /\ throws_on_ToString colorHex = true.
Proof.
  unfold stops_at. cbn [fst snd]. split.
  - intros H. apply andb_prop in H as [Hskip Hrest].
    apply negb_true_iff in Hskip.
    destruct (try_palette colorHex) as [p|e]; [discriminate Hrest|].
    repeat split; [exact Hskip | now exists e | exact Hrest].
  - intros (-> & (e & ->) & ->). reflexivity.
Qed.

Lemma never_stops (l : scheme) (entry : string * value) :
  existsb stops_at l = false -> In entry l -> stops_at entry = false.
Proof.
  intros Hno Hin. destruct (stops_at entry) eqn:Hstop; [|reflexivity].
  assert (existsb stops_at l = true) as Hyes
    by (apply existsb_exists; now exists entry).
  congruence.
Qed.

(** X9.  In an action that reaches its end no role is dropped: every
    entry of the light scheme has its base declaration in the raw
    variables and its registration in the theme buffer, and every entry
    of the dark scheme has its base declaration in the raw variables,
    whether the role is on the skip list or not and whether its palette
    was generated or gave a diagnostic. *)
Theorem every_role_is_declared (light dark : scheme) (role : string)
    (colorHex : value) (content : string) :
  fst (action light dark) = Normal content ->
  let st := snd (action light dark) in
  let roleKebab := toKebabCase role in
  (In (role, colorHex) light ->
     In (css_base "  " roleKebab (hexToRgbValues colorHex))
        (cssRawVarsOutput st)
     /\ In (theme_base roleKebab) (themeRegistrationOutput st))
  /\ (In (role, colorHex) dark ->
        In (css_base "    " roleKebab (hexToRgbValues colorHex))
           (cssRawVarsOutput st)).
Proof.
  intros Hdone. cbv zeta.
  pose proof (action_run _ _ (action_completed _ _ _ Hdone)) as Hrun.
  cbv zeta in Hrun.
  rewrite Hrun. cbn [snd cssRawVarsOutput themeRegistrationOutput].
  assert (Hroot : forall indent (l : scheme),
            In (role, colorHex) l ->
            In (css_base indent (toKebabCase role) (hexToRgbValues colorHex))
               (flat_map (root_lines indent) l)).
  { intros indent l Hin. apply in_flat_map. exists (role, colorHex).
    split; [exact Hin|]. cbn. right. now left. }
  split.
  - intros Hin. split.
    + apply in_or_app. right. apply in_or_app. left. now apply Hroot.
    + right. apply in_or_app. left. apply in_flat_map.
      exists (role, colorHex). split; [exact Hin|]. cbn. right. now left.
  - intros Hin. apply in_or_app. right. apply in_or_app. right.
    apply in_or_app. right. apply in_or_app. left. now apply Hroot.
Qed.

(** X10.  An action that reaches its end has written no diagnostic
    exactly when every role of both schemes is on the skip list or has
    a palette that was generated. *)
Theorem no_diagnostic_iff (light dark : scheme) (content : string) :
  fst (action light dark) = Normal content ->
  (stderr (snd (action light dark)) = []
   <-> (forall role colorHex,
          In (role, colorHex) (light ++ dark) ->
          includes KEYS_TO_SKIP role = true
          \/ exists palette, try_palette colorHex = Returns palette)).
Proof.
  intros Hdone. pose proof (action_completed _ _ _ Hdone) as Hno.
  pose proof (action_run light dark Hno) as Hrun. cbv zeta in Hrun.
  rewrite Hrun. cbn [snd stderr]. rewrite <- flat_map_app, flat_map_nil.
  split.
  - intros H role colorHex Hin. specialize (H (role, colorHex) Hin).
    pose proof (never_stops _ _ Hno Hin) as Hgo.
    unfold role_diagnostics, diagnostics in H. cbn [fst snd] in H.
    unfold stops_at in Hgo. cbn [fst snd] in Hgo.
    destruct (includes KEYS_TO_SKIP role); [now left|].
    destruct (try_palette colorHex) as [palette|e]; [right; now exists palette|].
    cbn [negb andb] in Hgo. rewrite Hgo in H. discriminate H.
  - intros H [role colorHex] Hin.
    unfold role_diagnostics, diagnostics. cbn [fst snd].
    destruct (H role colorHex Hin) as [-> | [palette ->]]; [reflexivity|].
    now destruct (includes KEYS_TO_SKIP role).
Qed.

(** X11.  For a role with a palette, whatever JSON value its base
    colour is, shade 100 of the palette is that value, so that the
    declaration of shade 100 carries the same text as the base
    declaration of the role, in the light and in the dark block. *)
Theorem shade_100_repeats_base (role : string) (colorHex : value)
    (palette : object) (st0 : state) :
  includes KEYS_TO_SKIP role = false ->
  fst (createTonalPaletteFrom100 colorHex st0) = Normal (Some palette) ->
  let roleKebab := toKebabCase role in
  obj_get 100 palette = colorHex
  /\ (forall st,
        In ("  --md-sys-color-" ++ roleKebab ++ "-100: "
              ++ hexToRgbValues colorHex ++ ";")%string
           (cssRawVarsOutput (snd (light_role role colorHex st)))
        /\ In ("  --md-sys-color-" ++ roleKebab ++ ": "
                 ++ hexToRgbValues colorHex ++ "; /* Locked Color */")%string
              (cssRawVarsOutput (snd (light_role role colorHex st)))
        /\ In ("    --md-sys-color-" ++ roleKebab ++ "-100: "
                 ++ hexToRgbValues colorHex ++ ";")%string
              (cssRawVarsOutput (snd (dark_role role colorHex st)))).
Proof.
  intros Hskip Hsome. cbv zeta.
  apply createTonalPaletteFrom100_some in Hsome.
  destruct (try_palette_inv colorHex palette Hsome) as (l & d & H1 & H2).
  pose proof (try_palette_returns colorHex l d H1 H2) as Hshape.
  rewrite Hsome in Hshape. injection Hshape as ->.
  split; [reflexivity|]. intros st.
  rewrite light_role_run, dark_role_run.
  cbn [snd cssRawVarsOutput]. unfold root_lines, shade_entries.
  rewrite Hskip, Hsome. cbn [map fst snd].
  repeat split; apply in_or_app; right.
  - do 3 right. left. reflexivity.
  - right. left. reflexivity.
  - do 3 right. left. reflexivity.
Qed.

(** X12.  A palette that was generated has eleven entries whatever the
    library returned, so one turn of either loop adds 13 lines to the
    raw variables for a role with a palette and 2 lines otherwise, and
    the light loop adds as many lines to the theme buffer. *)
Theorem role_adds_2_or_13_lines (role : string) (colorHex : value)
    (st : state) :
  let shades_added :=
    if includes KEYS_TO_SKIP role then 0%nat
    else match try_palette colorHex with
         | Returns _ => 11%nat
         | Throws _ => 0%nat
         end in
  let after_light := snd (light_role role colorHex st) in
  let after_dark := snd (dark_role role colorHex st) in
  (length (cssRawVarsOutput after_light)
   = length (cssRawVarsOutput st) + 2 + shades_added
   /\ length (themeRegistrationOutput after_light)
      = length (themeRegistrationOutput st) + 2 + shades_added
   /\ length (cssRawVarsOutput after_dark)
      = length (cssRawVarsOutput st) + 2 + shades_added
   /\ length (themeRegistrationOutput after_dark)
      = length (themeRegistrationOutput st))%nat.
Proof.
  cbv zeta. rewrite light_role_run, dark_role_run.
  cbn [snd cssRawVarsOutput themeRegistrationOutput].
  unfold root_lines, registration_lines, shade_entries.
  rewrite !length_app. cbn [length]. rewrite !length_map.
  destruct (includes KEYS_TO_SKIP role); cbn [length]; [lia|].
  destruct (try_palette colorHex) as [palette|e] eqn:Htry; cbn [length];
    [|lia].
  assert (Hlen : length palette = 11%nat).
  { pose proof (try_palette_keys colorHex palette Htry) as Hkeys.
    unfold obj_keys in Hkeys. apply (f_equal (@length N)) in Hkeys.
    now rewrite length_map in Hkeys. }
  rewrite Hlen. lia.
Qed.

(** X13.  The action stops with a failure before it reaches
    [fs.writeFileSync] exactly in these cases: the document could not be
    read or parsed; it is [null]; or one of its two schemes has a role
    that is not on the skip list, for whose base colour the library
    throws, and whose base colour cannot be converted to a string for
    the diagnostic.  Every other document, an object or not, goes as far
    as writing the style sheet. *)
Theorem run_fails_iff {E : Type} (parsed : result E value) :
  (exists errors, run parsed = ExitsWithFailure errors)
  <-> (exists error, parsed = Throws error)
      \/ parsed = Returns VNull \/ parsed = Returns VUndefined
      \/ (exists schemes light dark role colorHex error,
            parsed = Returns schemes
            /\ get_scheme schemes "light" = Some light
            /\ get_scheme schemes "dark" = Some dark
            /\ In (role, colorHex) (own_entries light ++ own_entries dark)
            /\ includes KEYS_TO_SKIP role = false
            /\ try_palette colorHex = Throws error
            /\ throws_on_ToString colorHex = true).
Proof.
  split.
  - intros [errors Hrun].
    destruct parsed as [schemes|error]; [|left; now exists error].
    right. unfold run in Hrun.
    destruct (get_scheme schemes "light") as [light|] eqn:Hlight.
    2:{ destruct (get_scheme_none _ _ Hlight) as [-> | ->]; auto. }
    destruct (get_scheme schemes "dark") as [dark|] eqn:Hdark.
    2:{ destruct (get_scheme_none _ _ Hdark) as [-> | ->]; auto. }
    right. right.
    destruct (existsb stops_at (own_entries light ++ own_entries dark))
      eqn:Hstop.
    + apply existsb_exists in Hstop as ([role colorHex] & Hin & Hat).
      apply stops_at_iff in Hat as (Hskip & (e & Htry) & Hts).
      exists schemes, light, dark, role, colorHex, e. repeat split; assumption.
    + pose proof (action_run _ _ Hstop) as Hact. cbv zeta in Hact.
      rewrite Hact in Hrun. discriminate Hrun.
  - intros [[error ->] | [-> | [-> | H]]];
      try (exists []; reflexivity).
    destruct H as (schemes & light & dark & role & colorHex & e & ->
                   & Hlight & Hdark & Hin & Hskip & Htry & Hts).
    unfold run. rewrite Hlight, Hdark.
    assert (Hstop : existsb stops_at (own_entries light ++ own_entries dark)
                    = true).
    { apply existsb_exists. exists (role, colorHex). split; [exact Hin|].
      apply stops_at_iff. repeat split; eauto. }
    destruct (action_stops _ _ Hstop) as (thrown_value & st & ->). eauto.
Qed.

(** X14.  A document whose two schemes have nothing to enumerate (they
    are absent, [null], numbers, booleans, or empty) gets the frame of
    the style sheet, with its two empty blocks and an empty theme
    block, and no diagnostic. *)
Theorem empty_schemes_give_the_frame {E : Type} (schemes light dark : value) :
  get_scheme schemes "light" = Some light -> own_entries light = [] ->
  get_scheme schemes "dark" = Some dark -> own_entries dark = [] ->
  @run lib E (Returns schemes)
  = WritesFile
      (join nl (root_opening ++ dark_opening ++ dark_closing
                  ++ registration_heading
                  ++ ["@theme {"%string; "}"%string]))
      [].
Proof.
  intros Hl Hle Hd Hde. unfold run. rewrite Hl, Hd, Hle, Hde.
  pose proof (action_run [] [] eq_refl) as Hrun. cbv zeta in Hrun.
  rewrite Hrun.
  cbn [flat_map app]. rewrite <- !app_assoc. reflexivity.
Qed.


End FurtherProperties.

(* ------------------------------------------------------------------ *)
(** ** Further concrete runs                                           *)
(* ------------------------------------------------------------------ *)

Lemma readme_action_completes :
  fst (@action grey_library readme_light readme_dark)
  = Normal (text_of (fst (@action grey_library readme_light readme_dark))).
Proof. vm_compute. reflexivity. Qed.

Lemma every_role_is_declared_witness :
  In (css_base "  " (toKebabCase "surface")
        (hexToRgbValues (VString "#FFFBFE")))
     (cssRawVarsOutput (snd (@action grey_library readme_light readme_dark))).
Proof.
  refine (proj1 (proj1 (@every_role_is_declared grey_library
                          readme_light readme_dark
                          "surface" (VString "#FFFBFE") _
                          readme_action_completes) _)).
  right. left. reflexivity.
Defined.

Lemma no_diagnostic_iff_witness :
  stderr (snd (@action grey_library readme_light readme_dark)) = []
  <-> (forall role colorHex,
         In (role, colorHex) (readme_light ++ readme_dark)%list ->
         includes KEYS_TO_SKIP role = true
         \/ exists palette, @try_palette grey_library colorHex
                            = Returns palette).
Proof.
  exact (@no_diagnostic_iff grey_library readme_light readme_dark _
           readme_action_completes).
Defined.

Lemma shade_100_repeats_base_witness :
  exists palette,
    fst (@createTonalPaletteFrom100 grey_library (VString "#6750A4")
           initial_state) = Normal (Some palette)
    /\ obj_get 100 palette = VString "#6750A4".
Proof.
  eexists. split; [reflexivity|].
  exact (proj1 (@shade_100_repeats_base grey_library "primary"
                  (VString "#6750A4") _ initial_state eq_refl eq_refl)).
Defined.

Lemma empty_schemes_give_the_frame_witness :
  @run grey_library unit
    (Returns (VObject [("light", VNumber 1); ("name", VString "theme")]))
  = WritesFile
      (join nl (root_opening ++ dark_opening ++ dark_closing
                  ++ registration_heading ++ ["@theme {"; "}"])%list)
      [].
Proof.
  apply (@empty_schemes_give_the_frame grey_library unit
           (VObject [("light", VNumber 1); ("name", VString "theme")])
           (VNumber 1) VUndefined); reflexivity.
Defined.

(** A scheme given as an array: the roles are the indices. *)
Example array_scheme :
  own_entries (VArray [VString "#6750A4"; VNull])
  = [("0", VString "#6750A4"); ("1", VNull)].
Proof. reflexivity. Qed.
